(** * Calendar widget: date grid, event bucketing, layout math, form mapping

    A shallow embedding of the pure core of the calendar component
    ([utils/date.utils.ts], [utils/event.utils.ts], the constants of
    [types/calendar.types.ts]) together with the parts of ECMAScript and of
    date-fns those functions call, followed by the properties proved about
    them.

    Conventions of the embedding.
    - A JavaScript [Date] is its time value: an integral number of
      milliseconds, or NaN for an Invalid Date.  It is kept in two ways.
      The modules [ES], [DateFns], [DateUtils] and [EventUtils] keep it in
      local milliseconds: they are the code in a local time zone that keeps
      one offset from UTC (the UTC value plus that offset), where every
      operation of the source reads or writes local calendar fields, or
      compares and subtracts time values, and a constant shift changes none
      of them.  The module [Zoned] keeps the UTC time value and takes the
      zone as a parameter, so that daylight-saving transitions are there:
      a field is read from [LocalTime] of the time value and a setter stores
      [UTC] of the local time it computes, as ECMAScript defines them.  The
      lemmas named [..._fixed] relate the two in a zone that keeps one
      offset.  The 8.64e15 ms clip of the time value is not modelled.
    - A JavaScript string is a [string]; one [ascii] stands for one code
      unit, so [String.length] is the [.length] of the source.
    - A JavaScript number that is always an integer or NaN in the source
      (time values, hours, minutes, comparator results) is an [option Z],
      [None] being NaN; the two layout percentages are binary64 values
      ([float]).
    - A thrown exception is the [Throw] case of [result]. *)

From Stdlib Require Import ZArith List String Ascii Bool Lia Floats Uint63.
From Stdlib Require Import Sorting.Sorted Sorting.Permutation.
From stdpp Require Import gmap strings.
Import ListNotations.

Open Scope string_scope.
Open Scope list_scope.
Open Scope Z_scope.

(** ** Exceptions *)

Inductive exn : Type :=
  | RangeError (msg : string).

Inductive result (A : Type) : Type :=
  | Ok (a : A)
  | Throw (e : exn).

Arguments Ok {A} a.
Arguments Throw {A} e.

Definition bind {A B : Type} (r : result A) (k : A -> result B) : result B :=
  match r with
  | Ok a => k a
  | Throw e => Throw e
  end.

Notation "'let*' x ':=' r 'in' k" := (bind r (fun x => k))
  (at level 10, x name, r at level 100, k at level 200).

(** ** ECMAScript strings *)

Module JSString.

(** WhiteSpace and LineTerminator code units below U+0100: TAB, LF, VT, FF,
    CR, SP, NBSP. *)
Definition isWhiteSpace (c : ascii) : bool :=
  let n := nat_of_ascii c in
  existsb (Nat.eqb n) [9; 10; 11; 12; 13; 32; 160]%nat.

Fixpoint trimStart (s : string) : string :=
  match s with
  | EmptyString => EmptyString
  | String c s' => if isWhiteSpace c then trimStart s' else s
  end.

Fixpoint trimEnd (s : string) : string :=
  match s with
  | EmptyString => EmptyString
  | String c s' =>
      match trimEnd s' with
      | EmptyString => if isWhiteSpace c then EmptyString else String c EmptyString
      | r => String c r
      end
  end.

(** [String.prototype.trim]. *)
Definition trim (s : string) : string := trimEnd (trimStart s).

(** Truthiness of a string: the empty string is the only falsy one. *)
Definition truthy (s : string) : bool :=
  match s with
  | EmptyString => false
  | String _ _ => true
  end.

(** [s.split(sep)] for a one-code-unit separator: never the empty list. *)
Fixpoint split (sep : ascii) (s : string) : list string :=
  match s with
  | EmptyString => [EmptyString]
  | String c s' =>
      if Ascii.eqb c sep then EmptyString :: split sep s'
      else match split sep s' with
           | [] => [String c EmptyString]
           | h :: t => String c h :: t
           end
  end.

Fixpoint repeat_char (c : ascii) (n : nat) : string :=
  match n with
  | O => EmptyString
  | S n' => String c (repeat_char c n')
  end.

(** [s.padStart(n, c)] for a one-code-unit filler. *)
Definition padStart (n : nat) (c : ascii) (s : string) : string :=
  String.append (repeat_char c (n - String.length s)) s.

Definition digitChar (d : Z) : ascii := ascii_of_nat (48 + Z.to_nat d).

Definition digitValue (c : ascii) : option Z :=
  let n := nat_of_ascii c in
  if (48 <=? n)%nat && (n <=? 57)%nat then Some (Z.of_nat n - 48) else None.

Fixpoint decimalDigits (fuel : nat) (n : Z) (acc : string) : string :=
  match fuel with
  | O => acc
  | S fuel' =>
      let acc' := String (digitChar (n mod 10)) acc in
      if n / 10 =? 0 then acc' else decimalDigits fuel' (n / 10) acc'
  end.

(** [String(n)] for an integer [n]: the decimal digits, with a minus sign
    for a negative number.  A number has no more decimal digits than bits. *)
Definition ofInteger (n : Z) : string :=
  let m := Z.abs n in
  let digits := decimalDigits (S (Z.to_nat (Z.log2 m))) m EmptyString in
  if n <? 0 then String "-" digits else digits.

(** [String(v)] for an integer or NaN. *)
Definition ofNumber (v : option Z) : string :=
  match v with
  | Some n => ofInteger n
  | None => "NaN"
  end.

(** The value of a string of decimal digits, [None] when a code unit is not
    a digit or the string is empty. *)
Fixpoint digitsValue (acc : Z) (s : string) : option Z :=
  match s with
  | EmptyString => Some acc
  | String c s' =>
      match digitValue c with
      | Some d => digitsValue (10 * acc + d) s'
      | None => None
      end
  end.

Definition unsignedValue (s : string) : option Z :=
  match s with
  | EmptyString => None
  | _ => digitsValue 0 s
  end.

(** [Number(s)] on the strings the form can hold a time part in: white space
    is trimmed, the empty string is 0, an optionally signed run of decimal
    digits is its value.  Every other string is NaN here; the fractional,
    exponent, hexadecimal and [Infinity] literals that [Number] also reads
    are outside the embedding. *)
Definition Number (s : string) : option Z :=
  match trim s with
  | EmptyString => Some 0
  | String "+" r => unsignedValue r
  | String "-" r => option_map Z.opp (unsignedValue r)
  | r => unsignedValue r
  end.

End JSString.

(** ** ECMAScript time values and the [Date] methods *)

Module ES.

Definition msPerSecond : Z := 1000.
Definition msPerMinute : Z := 60000.
Definition msPerHour : Z := 3600000.
Definition msPerDay : Z := 86400000.

Definition Day (t : Z) : Z := t / msPerDay.
Definition TimeWithinDay (t : Z) : Z := t mod msPerDay.

Definition HourFromTime (t : Z) : Z := (t / msPerHour) mod 24.
Definition MinFromTime (t : Z) : Z := (t / msPerMinute) mod 60.
Definition SecFromTime (t : Z) : Z := (t / msPerSecond) mod 60.
Definition msFromTime (t : Z) : Z := t mod msPerSecond.

(** Day 0 (1 January 1970) was a Thursday. *)
Definition WeekDayOfDay (n : Z) : Z := (n + 4) mod 7.
Definition WeekDay (t : Z) : Z := WeekDayOfDay (Day t).

(** [DaysInYear(y)], [InLeapYear] and [DayFromYear(y)], the day number of
    1 January of year [y]. *)
Definition DaysInYear (y : Z) : Z :=
  if negb (y mod 4 =? 0) then 365
  else if negb (y mod 100 =? 0) then 366
  else if negb (y mod 400 =? 0) then 365
  else 366.

Definition InLeapYearOf (y : Z) : Z := if DaysInYear y =? 366 then 1 else 0.

Definition DayFromYear (y : Z) : Z :=
  365 * (y - 1970) + (y - 1969) / 4 - (y - 1901) / 100 + (y - 1601) / 400.

(** The year of day number [n] (days since 1 January 1970): the largest [y]
    with [DayFromYear y <= n].  The mean year of 146097/400 days gives it to
    within one, and the two neighbours are tried. *)
Definition YearOfDay (n : Z) : Z :=
  let y := 1970 + (400 * n) / 146097 in
  if n <? DayFromYear y then y - 1
  else if DayFromYear (y + 1) <=? n then y + 1
  else y.

Definition DayWithinYearOf (n : Z) : Z := n - DayFromYear (YearOfDay n).

(** The day within the year on which month [m] (0 = January) starts, [leap]
    being 1 in a leap year and 0 otherwise; for [m = 12] the length of the
    year. *)
Definition monthStart (leap m : Z) : Z :=
  if m <=? 0 then 0
  else if m =? 1 then 31
  else if m =? 2 then 59 + leap
  else if m =? 3 then 90 + leap
  else if m =? 4 then 120 + leap
  else if m =? 5 then 151 + leap
  else if m =? 6 then 181 + leap
  else if m =? 7 then 212 + leap
  else if m =? 8 then 243 + leap
  else if m =? 9 then 273 + leap
  else if m =? 10 then 304 + leap
  else if m =? 11 then 334 + leap
  else 365 + leap.

(** The table of [MonthFromTime]. *)
Definition monthOfYearDay (leap d : Z) : Z :=
  if d <? 31 then 0
  else if d <? 59 + leap then 1
  else if d <? 90 + leap then 2
  else if d <? 120 + leap then 3
  else if d <? 151 + leap then 4
  else if d <? 181 + leap then 5
  else if d <? 212 + leap then 6
  else if d <? 243 + leap then 7
  else if d <? 273 + leap then 8
  else if d <? 304 + leap then 9
  else if d <? 334 + leap then 10
  else 11.

Definition MonthOfDay (n : Z) : Z :=
  monthOfYearDay (InLeapYearOf (YearOfDay n)) (DayWithinYearOf n).

(** The table of [DateFromTime]: the day within the year, less the start of
    its month, plus one. *)
Definition DateOfDay (n : Z) : Z :=
  DayWithinYearOf n - monthStart (InLeapYearOf (YearOfDay n)) (MonthOfDay n) + 1.

(** Year, month (0 = January) and day of the month of a day number. *)
Definition civilOfDay (n : Z) : Z * Z * Z := (YearOfDay n, MonthOfDay n, DateOfDay n).

Definition YearFromTime (t : Z) : Z := YearOfDay (Day t).
Definition MonthFromTime (t : Z) : Z := MonthOfDay (Day t).
Definition DateFromTime (t : Z) : Z := DateOfDay (Day t).

(** Days in month [m] (0 = January) of year [y]. *)
Definition daysInMonth (y m : Z) : Z :=
  if m =? 1 then 28 + InLeapYearOf y
  else if (m =? 3) || (m =? 5) || (m =? 8) || (m =? 10) then 30
  else 31.

(** [MakeDay(year, month, date)]: the day number of the first of the month
    [month mod 12] of year [year + floor(month / 12)], plus [date - 1]. *)
Definition MakeDay (year month date : Z) : Z :=
  let ym := year + month / 12 in
  let mn := month mod 12 in
  DayFromYear ym + monthStart (InLeapYearOf ym) mn + date - 1.

Definition MakeTime (hour min sec ms : Z) : Z :=
  hour * msPerHour + min * msPerMinute + sec * msPerSecond + ms.

Definition MakeDate (day time : Z) : Z := day * msPerDay + time.

(** A [Date] object: a time value or Invalid Date. *)
Inductive Date : Type :=
  | Time (t : Z)
  | InvalidDate.

(** [date.getTime()], also [+date]: [None] is NaN. *)
Definition getTime (d : Date) : option Z :=
  match d with
  | Time t => Some t
  | InvalidDate => None
  end.

Definition ofTime (v : option Z) : Date :=
  match v with
  | Some t => Time t
  | None => InvalidDate
  end.

Definition onTime (f : Z -> Z) (d : Date) : Date :=
  match d with
  | Time t => Time (f t)
  | InvalidDate => InvalidDate
  end.

Definition getFullYear (d : Date) : option Z := option_map YearFromTime (getTime d).
Definition getMonth (d : Date) : option Z := option_map MonthFromTime (getTime d).
Definition getDate (d : Date) : option Z := option_map DateFromTime (getTime d).
Definition getDay (d : Date) : option Z := option_map WeekDay (getTime d).
Definition getHours (d : Date) : option Z := option_map HourFromTime (getTime d).
Definition getMinutes (d : Date) : option Z := option_map MinFromTime (getTime d).

(** [date.setDate(dt)]. *)
Definition setDate (dt : Z) : Date -> Date :=
  onTime (fun t =>
    MakeDate (MakeDay (YearFromTime t) (MonthFromTime t) dt) (TimeWithinDay t)).

(** [date.setFullYear(y, m, dt)]. *)
Definition setFullYear (y m dt : Z) : Date -> Date :=
  onTime (fun t => MakeDate (MakeDay y m dt) (TimeWithinDay t)).

(** [date.setHours(h, m, s, ms)]. *)
Definition setHours4 (h m s ms : Z) : Date -> Date :=
  onTime (fun t => MakeDate (Day t) (MakeTime h m s ms)).

(** [date.setHours(h)]: minutes, seconds and milliseconds are kept. *)
Definition setHours1 (h : Z) : Date -> Date :=
  onTime (fun t =>
    MakeDate (Day t) (MakeTime h (MinFromTime t) (SecFromTime t) (msFromTime t))).

(** [date.setMinutes(m)]: hours, seconds and milliseconds are kept. *)
Definition setMinutes1 (m : Z) : Date -> Date :=
  onTime (fun t =>
    MakeDate (Day t) (MakeTime (HourFromTime t) m (SecFromTime t) (msFromTime t))).

(** [new Date(y, m, d, h, mi)] for a year outside 0..99. *)
Definition newDate (y m d h mi : Z) : Date :=
  Time (MakeDate (MakeDay y m d) (MakeTime h mi 0 0)).

(** [a <= b] and [a < b] on two dates or numbers: false when either is NaN. *)
Definition leNumber (a b : option Z) : bool :=
  match a, b with
  | Some x, Some y => x <=? y
  | _, _ => false
  end.

Definition ltNumber (a b : option Z) : bool :=
  match a, b with
  | Some x, Some y => x <? y
  | _, _ => false
  end.

(** [a - b]. *)
Definition subNumber (a b : option Z) : option Z :=
  match a, b with
  | Some x, Some y => Some (x - y)
  | _, _ => None
  end.

(** An integer as a binary64 value; exact below 2^53 in magnitude, which
    covers every hour, minute and difference of time values. *)
Definition toFloat (z : Z) : float :=
  if z <? 0 then PrimFloat.opp (PrimFloat.of_uint63 (Uint63.of_Z (- z)))
  else PrimFloat.of_uint63 (Uint63.of_Z z).

Definition numberToFloat (v : option Z) : float :=
  match v with
  | Some z => toFloat z
  | None => PrimFloat.nan
  end.

End ES.

(** ** ECMAScript arrays *)

Module JSArray.

(** [a[a.length - 1]]: [None] is [undefined]. *)
Definition lastElement {A : Type} (a : list A) : option A :=
  match rev a with
  | [] => None
  | x :: _ => Some x
  end.

Section Sort.
Context {A : Type}.
(** The comparator's result, [None] being NaN. *)
Variable compareFn : A -> A -> option Z.

(** [x] is placed before the first element it does not compare greater
    than; elements it compares equal to stay behind it. *)
Fixpoint insertSorted (x : A) (l : list A) : list A :=
  match l with
  | [] => [x]
  | y :: l' =>
      if ES.ltNumber (Some 0) (compareFn x y) then y :: insertSorted x l'
      else x :: l
  end.

(** [a.sort(compareFn)]: a stable sort (ECMAScript 2019), here by
    insertion from the right.  With a comparator that is a consistent
    ordering every stable sort returns this list; with one that answers
    NaN the order is implementation-defined and this is one choice. *)
Fixpoint sort (l : list A) : list A :=
  match l with
  | [] => []
  | x :: l' => insertSorted x (sort l')
  end.
End Sort.

End JSArray.

(** ** date-fns

    The functions of date-fns the two utility modules import, as date-fns 3
    and 4 define them (an interval whose ends are out of order is read in
    order and nothing is thrown for it; date-fns 2 threw a [RangeError]
    there, which no input of the properties below reaches). *)

Module DateFns.
Import ES.

Definition startOfDay : Date -> Date := setHours4 0 0 0 0.
Definition endOfDay : Date -> Date := setHours4 23 59 59 999.

Definition startOfMonth (date : Date) : Date :=
  setHours4 0 0 0 0 (setDate 1 date).

Definition endOfMonth (date : Date) : Date :=
  match getFullYear date, getMonth date with
  | Some year, Some month =>
      setHours4 23 59 59 999 (setFullYear year (month + 1) 0 date)
  | _, _ => InvalidDate
  end.

(** [startOfWeek(date, { weekStartsOn })]. *)
Definition startOfWeek (date : Date) (weekStartsOn : Z) : Date :=
  match getDay date, getDate date with
  | Some day, Some dt =>
      let diff := (if day <? weekStartsOn then 7 else 0) + day - weekStartsOn in
      setHours4 0 0 0 0 (setDate (dt - diff) date)
  | _, _ => InvalidDate
  end.

(** [endOfWeek(date, { weekStartsOn })]. *)
Definition endOfWeek (date : Date) (weekStartsOn : Z) : Date :=
  match getDay date, getDate date with
  | Some day, Some dt =>
      let diff := (if day <? weekStartsOn then -7 else 0) + 6 - (day - weekStartsOn) in
      setHours4 23 59 59 999 (setDate (dt + diff) date)
  | _, _ => InvalidDate
  end.

(** The loop of [eachDayOfInterval]: push the current day, step to the next
    midnight, until the current day is past [endTime]. *)
Fixpoint eachDayLoop (fuel : nat) (currentDate : Date) (endTime : option Z)
  : list Date :=
  match fuel with
  | O => []
  | S fuel' =>
      if leNumber (getTime currentDate) endTime then
        currentDate ::
        eachDayLoop fuel'
          (match getDate currentDate with
           | Some dt => setHours4 0 0 0 0 (setDate (dt + 1) currentDate)
           | None => InvalidDate
           end)
          endTime
      else []
  end.

(** [eachDayOfInterval({ start, end })] with the default step of one day.
    The loop runs once per day of the interval; the fuel is that number. *)
Definition eachDayOfInterval (start end_ : Date) : list Date :=
  let reversed := ltNumber (getTime end_) (getTime start) in
  let endTime := if reversed then getTime start else getTime end_ in
  let currentDate := setHours4 0 0 0 0 (if reversed then end_ else start) in
  let fuel :=
    match getTime currentDate, endTime with
    | Some t, Some e => Z.to_nat ((e - t) / msPerDay + 1)
    | _, _ => O
    end in
  let dates := eachDayLoop fuel currentDate endTime in
  if reversed then rev dates else dates.

Definition isSameDay (dateLeft dateRight : Date) : bool :=
  match getTime (startOfDay dateLeft), getTime (startOfDay dateRight) with
  | Some l, Some r => l =? r
  | _, _ => false
  end.

Definition isSameMonth (dateLeft dateRight : Date) : bool :=
  match getFullYear dateLeft, getFullYear dateRight, getMonth dateLeft, getMonth dateRight with
  | Some yl, Some yr, Some ml, Some mr => (yl =? yr) && (ml =? mr)
  | _, _, _, _ => false
  end.

Record Interval : Type := { start : Date; end_ : Date }.

(** [isWithinInterval(date, { start, end })]: the two ends are put in
    order, and the test is false as soon as one of the three is NaN. *)
Definition isWithinInterval (date : Date) (interval : Interval) : bool :=
  match getTime date, getTime (start interval), getTime (end_ interval) with
  | Some time, Some s, Some e =>
      let startTime := Z.min s e in
      let endTime := Z.max s e in
      (startTime <=? time) && (time <=? endTime)
  | _, _, _ => false
  end.

(** [differenceInMinutes(dateLeft, dateRight)]: the difference in
    milliseconds over 60000, truncated towards zero. *)
Definition differenceInMinutes (dateLeft dateRight : Date) : option Z :=
  option_map (fun diff => Z.quot diff msPerMinute)
    (subNumber (getTime dateLeft) (getTime dateRight)).

Definition getHours (date : Date) : option Z := ES.getHours date.
Definition getMinutes (date : Date) : option Z := ES.getMinutes date.

(** [setHours(date, hours)] and [setMinutes(date, minutes)]: a NaN argument
    makes the date invalid. *)
Definition setHours (date : Date) (hours : option Z) : Date :=
  match hours with
  | Some h => setHours1 h date
  | None => InvalidDate
  end.

Definition setMinutes (date : Date) (minutes : option Z) : Date :=
  match minutes with
  | Some m => setMinutes1 m date
  | None => InvalidDate
  end.

(** [addLeadingZeros(number, targetLength)]. *)
Definition addLeadingZeros (number : Z) (targetLength : nat) : string :=
  let output := JSString.padStart targetLength "0" (JSString.ofInteger (Z.abs number)) in
  if number <? 0 then String "-" output else output.

(** The tokens of a format string that the source uses. *)
Inductive token : Type :=
  | yyyy | MM | dd | HH | mm
  | Literal (s : string).

Definition formatToken (t : Z) (tok : token) : string :=
  match tok with
  | yyyy =>
      let signedYear := YearFromTime t in
      let year := if 0 <? signedYear then signedYear else 1 - signedYear in
      addLeadingZeros year 4
  | MM => addLeadingZeros (MonthFromTime t + 1) 2
  | dd => addLeadingZeros (DateFromTime t) 2
  | HH => addLeadingZeros (HourFromTime t) 2
  | mm => addLeadingZeros (MinFromTime t) 2
  | Literal s => s
  end.

(** [format(date, formatStr)], the format string given by its tokens: an
    invalid date throws. *)
Definition format (date : Date) (formatStr : list token) : result string :=
  match date with
  | Time t => Ok (String.concat "" (map (formatToken t) formatStr))
  | InvalidDate => Throw (RangeError "Invalid time value")
  end.

(** ['yyyy-MM-dd'] and ['HH:mm']. *)
Definition pattern_yyyy_MM_dd : list token := [yyyy; Literal "-"; MM; Literal "-"; dd].
Definition pattern_HH_mm : list token := [HH; Literal ":"; mm].

(** date-fns' [validateDate(year, month, date)]. *)
Definition validateDate (year month date : Z) : bool :=
  (0 <=? month) && (month <=? 11) && (1 <=? date) && (date <=? daysInMonth year month).

(** [parseISO(s)] on the extended calendar-date form [YYYY-MM-DD], the form
    a date input holds and ['yyyy-MM-dd'] prints: local midnight of that
    day, or Invalid Date when the month or the day is out of range.  The
    other ISO 8601 forms [parseISO] reads (reduced precision, week and
    ordinal dates, a time or zone part) are outside the embedding and are
    Invalid Date here. *)
Definition parseISO (argument : string) : Date :=
  match argument with
  | String y1 (String y2 (String y3 (String y4 (String "-"
      (String m1 (String m2 (String "-" (String d1 (String d2 EmptyString))))))))) =>
      match JSString.digitsValue 0 (String y1 (String y2 (String y3 (String y4 EmptyString)))),
            JSString.digitsValue 0 (String m1 (String m2 EmptyString)),
            JSString.digitsValue 0 (String d1 (String d2 EmptyString)) with
      | Some year, Some month, Some day =>
          if validateDate year (month - 1) day
          then Time (MakeDate (MakeDay year (month - 1) day) 0)
          else InvalidDate
      | _, _, _ => InvalidDate
      end
  | _ => InvalidDate
  end.

End DateFns.

(** ** [utils/date.utils.ts] *)

Module DateUtils.
Import ES DateFns.

(** The padding loop of [getCalendarGrid]: 24 hours are added to the time
    value of the last day.  A turn that finds a last day makes the array one
    longer; a turn on an empty array changes nothing, so the loop never ends
    there: [None]. *)
Fixpoint padTo42 (fuel : nat) (days : list Date) : option (list Date) :=
  if (length days <? 42)%nat then
    match fuel with
    | O => None
    | S fuel' =>
        match JSArray.lastElement days with
        | Some lastDay =>
            padTo42 fuel'
              (days ++ [ofTime (option_map (fun t => t + 24 * 60 * 60 * 1000) (getTime lastDay))])
        | None => padTo42 fuel' days
        end
    end
  else Some days.

(** [getCalendarGrid(date)]; [None] when the padding loop does not end.
    Forty-two turns are all the loop can take on a non-empty array. *)
Definition getCalendarGrid (date : Date) : option (list Date) :=
  let monthStart := startOfMonth date in
  let monthEnd := endOfMonth date in
  let calendarStart := startOfWeek monthStart 0 in
  let calendarEnd := endOfWeek monthEnd 0 in
  let days := eachDayOfInterval calendarStart calendarEnd in
  option_map (firstn 42) (padTo42 42 days).

Definition getWeekDays (date : Date) : list Date :=
  let weekStart := startOfWeek date 0 in
  let weekEnd := endOfWeek date 0 in
  eachDayOfInterval weekStart weekEnd.

Definition isCurrentMonth (date currentDate : Date) : bool :=
  isSameMonth date currentDate.

Definition formatDateForInput (date : Date) : result string :=
  format date pattern_yyyy_MM_dd.

Definition formatTimeForInput (date : Date) : result string :=
  format date pattern_HH_mm.

(** [hours * 60 + minutes] is an integer or NaN; the quotient and the
    product are binary64 operations. *)
Definition getTimeSlotPosition (date : Date) : float :=
  let hours := getHours date in
  let minutes := getMinutes date in
  let total :=
    match hours, minutes with
    | Some h, Some m => Some (h * 60 + m)
    | _, _ => None
    end in
  (numberToFloat total / toFloat (24 * 60) * 100)%float.

Definition getEventHeight (startDate endDate : Date) : float :=
  let durationMinutes := differenceInMinutes endDate startDate in
  (numberToFloat durationMinutes / toFloat (24 * 60) * 100)%float.

(** [hours] is never [undefined] ([split] returns at least one part);
    [minutes] is when the time string has no colon. *)
Definition parseDateTimeInputs (dateString timeString : string) : Date :=
  let date := parseISO dateString in
  let parts := map JSString.Number (JSString.split ":" timeString) in
  let hours := nth_error parts 0 in
  let minutes := nth_error parts 1 in
  setMinutes (setHours date (default (Some 0) hours)) (default (Some 0) minutes).

End DateUtils.

(** ** [types/calendar.types.ts] *)

Module CalendarEvent.
(** An absent optional field is [None]. *)
Record t : Type := {
  id : string;
  title : string;
  description : option string;
  startDate : ES.Date;
  endDate : ES.Date;
  color : option string;
  category : option string;
}.
End CalendarEvent.

Module EventFormData.
Record t : Type := {
  title : string;
  description : string;
  startDate : string;
  startTime : string;
  endDate : string;
  endTime : string;
  color : string;
  category : string;
}.
End EventFormData.

(** [FormErrors]: a partial record from field name to message. *)
Abbreviation FormErrors := (gmap string string).

(** [EVENT_COLORS], each entry a name and a value. *)
Definition EVENT_COLORS : list (string * string) :=
  [ ("Blue", "#3b82f6"); ("Green", "#10b981"); ("Yellow", "#f59e0b");
    ("Purple", "#8b5cf6"); ("Pink", "#ec4899"); ("Red", "#ef4444");
    ("Cyan", "#06b6d4"); ("Orange", "#f97316") ].

(** ** [utils/event.utils.ts] *)

Module EventUtils.
Import ES DateFns DateUtils.

(** [a || b] on strings, [b] possibly [undefined]. *)
Definition orElse (a : string) (b : option string) : option string :=
  if JSString.truthy a then Some a else b.

(** [EVENT_COLORS[0]?.value]. *)
Definition firstColor : option string := option_map snd (nth_error EVENT_COLORS 0).

Definition byStartDate (a b : CalendarEvent.t) : option Z :=
  subNumber (getTime (CalendarEvent.startDate a)) (getTime (CalendarEvent.startDate b)).

Definition getEventsForDate (events : list CalendarEvent.t) (date : Date)
  : list CalendarEvent.t :=
  JSArray.sort byStartDate
    (List.filter
       (fun event =>
          let eventStart := startOfDay (CalendarEvent.startDate event) in
          let eventEnd := endOfDay (CalendarEvent.endDate event) in
          let checkDate := startOfDay date in
          isWithinInterval checkDate {| start := eventStart; end_ := eventEnd |}
          || isSameDay (CalendarEvent.startDate event) date
          || isSameDay (CalendarEvent.endDate event) date)
       events).

Definition getEventsForWeek (events : list CalendarEvent.t) (weekDays : list Date)
  : list CalendarEvent.t :=
  match nth_error weekDays 0, JSArray.lastElement weekDays with
  | Some weekStart, Some weekEnd =>
      JSArray.sort byStartDate
        (List.filter
           (fun event =>
              isWithinInterval (CalendarEvent.startDate event)
                {| start := startOfDay weekStart; end_ := endOfDay weekEnd |}
              || isWithinInterval (CalendarEvent.endDate event)
                {| start := startOfDay weekStart; end_ := endOfDay weekEnd |})
           events)
  | _, _ => []
  end.

Definition validateEventForm (data : EventFormData.t) : FormErrors :=
  let errors : FormErrors := ∅ in
  let errors :=
    if negb (JSString.truthy (JSString.trim (EventFormData.title data))) then
      <["title" := "Title is required"]> errors
    else if (100 <? String.length (EventFormData.title data))%nat then
      <["title" := "Title must be 100 characters or less"]> errors
    else errors in
  let errors :=
    if JSString.truthy (EventFormData.description data)
       && (500 <? String.length (EventFormData.description data))%nat then
      <["description" := "Description must be 500 characters or less"]> errors
    else errors in
  let errors :=
    if negb (JSString.truthy (EventFormData.startDate data)) then
      <["startDate" := "Start date is required"]> errors
    else errors in
  let errors :=
    if negb (JSString.truthy (EventFormData.startTime data)) then
      <["startTime" := "Start time is required"]> errors
    else errors in
  let errors :=
    if negb (JSString.truthy (EventFormData.endDate data)) then
      <["endDate" := "End date is required"]> errors
    else errors in
  let errors :=
    if negb (JSString.truthy (EventFormData.endTime data)) then
      <["endTime" := "End time is required"]> errors
    else errors in
  let errors :=
    if JSString.truthy (EventFormData.startDate data)
       && JSString.truthy (EventFormData.startTime data)
       && JSString.truthy (EventFormData.endDate data)
       && JSString.truthy (EventFormData.endTime data) then
      let start := parseDateTimeInputs (EventFormData.startDate data) (EventFormData.startTime data) in
      let end_ := parseDateTimeInputs (EventFormData.endDate data) (EventFormData.endTime data) in
      if leNumber (getTime end_) (getTime start) then
        <["endDate" := "End must be after start"]> errors
      else errors
    else errors in
  errors.

(** [generateEventId()] reads the clock and the random source; the
    identity it mints is the argument [freshId]. *)
Definition formDataToEvent (freshId : string) (data : EventFormData.t)
  (existingId : option string) : CalendarEvent.t :=
  {| CalendarEvent.id := default freshId existingId;
     CalendarEvent.title := JSString.trim (EventFormData.title data);
     CalendarEvent.description :=
       orElse (JSString.trim (EventFormData.description data)) None;
     CalendarEvent.startDate :=
       parseDateTimeInputs (EventFormData.startDate data) (EventFormData.startTime data);
     CalendarEvent.endDate :=
       parseDateTimeInputs (EventFormData.endDate data) (EventFormData.endTime data);
     CalendarEvent.color := orElse (EventFormData.color data) firstColor;
     CalendarEvent.category := orElse (EventFormData.category data) None |}.

Definition eventToFormData (event : CalendarEvent.t) : result EventFormData.t :=
  let* startDate := formatDateForInput (CalendarEvent.startDate event) in
  let* startTime := formatTimeForInput (CalendarEvent.startDate event) in
  let* endDate := formatDateForInput (CalendarEvent.endDate event) in
  let* endTime := formatTimeForInput (CalendarEvent.endDate event) in
  Ok {| EventFormData.title := CalendarEvent.title event;
        EventFormData.description := default "" (CalendarEvent.description event);
        EventFormData.startDate := startDate;
        EventFormData.startTime := startTime;
        EventFormData.endDate := endDate;
        EventFormData.endTime := endTime;
        EventFormData.color :=
          default (default "#3b82f6" firstColor) (CalendarEvent.color event);
        EventFormData.category := default "" (CalendarEvent.category event) |}.

(** [new Date()] is the argument [clock]; [date] is the optional argument
    of the source. *)
Definition getDefaultFormData (clock : Date) (date : option Date)
  : result EventFormData.t :=
  let now := default clock date in
  let* startDate := formatDateForInput now in
  let startHour := option_map (fun h => h + 1) (ES.getHours now) in
  let startTime :=
    String.append (JSString.padStart 2 "0" (JSString.ofNumber startHour)) ":00" in
  let endTime :=
    String.append
      (JSString.padStart 2 "0" (JSString.ofNumber (option_map (fun h => h + 1) startHour)))
      ":00" in
  Ok {| EventFormData.title := "";
        EventFormData.description := "";
        EventFormData.startDate := startDate;
        EventFormData.startTime := startTime;
        EventFormData.endDate := startDate;
        EventFormData.endTime := endTime;
        EventFormData.color := default "#3b82f6" firstColor;
        EventFormData.category := "" |}.

End EventUtils.


(** ** Local time zones

    The definitions above keep a date in local milliseconds.  A JavaScript
    [Date] holds a UTC time value: a calendar field is read from
    [LocalTime(t)], and a setter computes the new local time from
    [LocalTime(t)] and stores [UTC] of it.  In a zone with a fixed offset
    the two views differ by a constant shift (see [Zoned.ofLocal_toLocal]
    and the lemmas that follow it).  In a zone with daylight saving they do
    not: a day can last 23 or 25 hours, and a local time can be read as two
    instants or as none. *)

Module Zone.
Import ES.

(** A local time zone as ECMAScript sees it: the offset of local time from
    UTC, in milliseconds, at a UTC time value ([LocalTZA(t, true)]) and at a
    local time value ([LocalTZA(t, false)]).  A local time that a transition
    repeats or skips is read with the offset in force before the
    transition. *)
Record t : Type :=
  { offsetAtUTC : Z -> Z;
    offsetAtLocal : Z -> Z }.

Definition LocalTime (tz : t) (u : Z) : Z := u + offsetAtUTC tz u.
Definition UTC (tz : t) (l : Z) : Z := l - offsetAtLocal tz l.

(** A zone that keeps one offset. *)
Definition fixed (offset : Z) : t :=
  {| offsetAtUTC := fun _ => offset;
     offsetAtLocal := fun _ => offset |}.

(** America/New_York by its rule for 2023: five hours behind UTC, and four
    hours behind from 12 March, 07:00 UTC, to 5 November, 06:00 UTC.  Other
    years are left on standard time. *)
Definition newYorkSpring2023 : Z := MakeDate (MakeDay 2023 2 12) (MakeTime 7 0 0 0).
Definition newYorkFall2023 : Z := MakeDate (MakeDay 2023 10 5) (MakeTime 6 0 0 0).

Definition newYork2023 : t :=
  {| offsetAtUTC := fun u =>
       if (newYorkSpring2023 <=? u) && (u <? newYorkFall2023)
       then -4 * msPerHour else -5 * msPerHour;
     offsetAtLocal := fun l =>
       if (newYorkSpring2023 - 4 * msPerHour <=? l) && (l <? newYorkFall2023 - 4 * msPerHour)
       then -4 * msPerHour else -5 * msPerHour |}.

End Zone.

(** The [Date] methods, date-fns and the two utility modules on UTC time
    values, in a local time zone. *)

Module Zoned.
Import ES.

Section InZone.
Variable tz : Zone.t.

Definition toLocal : Date -> Date := onTime (Zone.LocalTime tz).
Definition ofLocal : Date -> Date := onTime (Zone.UTC tz).

(** [new Date(y, m, d, h, mi)] for a year outside 0..99. *)
Definition newDate (y m d h mi : Z) : Date := ofLocal (ES.newDate y m d h mi).

Definition getFullYear (d : Date) : option Z := ES.getFullYear (toLocal d).
Definition getMonth (d : Date) : option Z := ES.getMonth (toLocal d).
Definition getDate (d : Date) : option Z := ES.getDate (toLocal d).
Definition getDay (d : Date) : option Z := ES.getDay (toLocal d).

Definition setDate (dt : Z) (d : Date) : Date := ofLocal (ES.setDate dt (toLocal d)).
Definition setFullYear (y m dt : Z) (d : Date) : Date :=
  ofLocal (ES.setFullYear y m dt (toLocal d)).
Definition setHours4 (h m s ms : Z) (d : Date) : Date :=
  ofLocal (ES.setHours4 h m s ms (toLocal d)).
Definition setHours1 (h : Z) (d : Date) : Date := ofLocal (ES.setHours1 h (toLocal d)).
Definition setMinutes1 (m : Z) (d : Date) : Date := ofLocal (ES.setMinutes1 m (toLocal d)).

(** *** date-fns *)

Definition startOfMonth (date : Date) : Date :=
  setHours4 0 0 0 0 (setDate 1 date).

Definition endOfMonth (date : Date) : Date :=
  match getFullYear date, getMonth date with
  | Some year, Some month =>
      setHours4 23 59 59 999 (setFullYear year (month + 1) 0 date)
  | _, _ => InvalidDate
  end.

Definition startOfWeek (date : Date) (weekStartsOn : Z) : Date :=
  match getDay date, getDate date with
  | Some day, Some dt =>
      let diff := (if day <? weekStartsOn then 7 else 0) + day - weekStartsOn in
      setHours4 0 0 0 0 (setDate (dt - diff) date)
  | _, _ => InvalidDate
  end.

Definition endOfWeek (date : Date) (weekStartsOn : Z) : Date :=
  match getDay date, getDate date with
  | Some day, Some dt =>
      let diff := (if day <? weekStartsOn then -7 else 0) + 6 - (day - weekStartsOn) in
      setHours4 23 59 59 999 (setDate (dt + diff) date)
  | _, _ => InvalidDate
  end.

(** The loop of [eachDayOfInterval]; [None] when the fuel runs out before
    the current day is past [endTime]. *)
Fixpoint eachDayLoop (fuel : nat) (currentDate : Date) (endTime : option Z)
  : option (list Date) :=
  if leNumber (getTime currentDate) endTime then
    match fuel with
    | O => None
    | S fuel' =>
        option_map (cons currentDate)
          (eachDayLoop fuel'
             (match getDate currentDate with
              | Some dt => setHours4 0 0 0 0 (setDate (dt + 1) currentDate)
              | None => InvalidDate
              end)
             endTime)
    end
  else Some [].

(** [eachDayOfInterval({ start, end })] with the default step of one day.
    The fuel is one turn per hour of the interval, and one more: enough
    wherever the next local midnight is at least an hour away. *)
Definition eachDayOfInterval (start end_ : Date) : option (list Date) :=
  let reversed := ltNumber (getTime end_) (getTime start) in
  let endTime := if reversed then getTime start else getTime end_ in
  let currentDate := setHours4 0 0 0 0 (if reversed then end_ else start) in
  let fuel :=
    match getTime currentDate, endTime with
    | Some t, Some e => Z.to_nat ((e - t) / msPerHour + 1)
    | _, _ => O
    end in
  option_map (fun dates => if reversed then rev dates else dates)
    (eachDayLoop fuel currentDate endTime).

(** [format] reads the local fields. *)
Definition format (date : Date) (formatStr : list DateFns.token) : result string :=
  DateFns.format (toLocal date) formatStr.

(** [parseISO(s)] on the calendar-date form: date-fns reads the year, month
    and day, sets them on [new Date(0)] with [setFullYear], and then sets
    the time of day with [setHours(0, 0, 0, 0)]. *)
Definition parseISO (argument : string) : Date :=
  match argument with
  | String y1 (String y2 (String y3 (String y4 (String "-"
      (String m1 (String m2 (String "-" (String d1 (String d2 EmptyString))))))))) =>
      match JSString.digitsValue 0 (String y1 (String y2 (String y3 (String y4 EmptyString)))),
            JSString.digitsValue 0 (String m1 (String m2 EmptyString)),
            JSString.digitsValue 0 (String d1 (String d2 EmptyString)) with
      | Some year, Some month, Some day =>
          if DateFns.validateDate year (month - 1) day
          then setHours4 0 0 0 0 (setFullYear year (month - 1) day (Time 0))
          else InvalidDate
      | _, _, _ => InvalidDate
      end
  | _ => InvalidDate
  end.

Definition setHours (date : Date) (hours : option Z) : Date :=
  match hours with
  | Some h => setHours1 h date
  | None => InvalidDate
  end.

Definition setMinutes (date : Date) (minutes : option Z) : Date :=
  match minutes with
  | Some m => setMinutes1 m date
  | None => InvalidDate
  end.

(** *** [utils/date.utils.ts] *)

(** [getCalendarGrid(date)].  The padding loop adds 24 hours to the time
    value of the last day, which here is the UTC time value. *)
Definition getCalendarGrid (date : Date) : option (list Date) :=
  let monthStart := startOfMonth date in
  let monthEnd := endOfMonth date in
  let calendarStart := startOfWeek monthStart 0 in
  let calendarEnd := endOfWeek monthEnd 0 in
  match eachDayOfInterval calendarStart calendarEnd with
  | Some days => option_map (firstn 42) (DateUtils.padTo42 42 days)
  | None => None
  end.

Definition formatDateForInput (date : Date) : result string :=
  format date DateFns.pattern_yyyy_MM_dd.

Definition formatTimeForInput (date : Date) : result string :=
  format date DateFns.pattern_HH_mm.

Definition parseDateTimeInputs (dateString timeString : string) : Date :=
  let date := parseISO dateString in
  let parts := map JSString.Number (JSString.split ":" timeString) in
  let hours := nth_error parts 0 in
  let minutes := nth_error parts 1 in
  setMinutes (setHours date (default (Some 0) hours)) (default (Some 0) minutes).

(** *** [utils/event.utils.ts] *)

Definition formDataToEvent (freshId : string) (data : EventFormData.t)
  (existingId : option string) : CalendarEvent.t :=
  {| CalendarEvent.id := default freshId existingId;
     CalendarEvent.title := JSString.trim (EventFormData.title data);
     CalendarEvent.description :=
       EventUtils.orElse (JSString.trim (EventFormData.description data)) None;
     CalendarEvent.startDate :=
       parseDateTimeInputs (EventFormData.startDate data) (EventFormData.startTime data);
     CalendarEvent.endDate :=
       parseDateTimeInputs (EventFormData.endDate data) (EventFormData.endTime data);
     CalendarEvent.color := EventUtils.orElse (EventFormData.color data) EventUtils.firstColor;
     CalendarEvent.category := EventUtils.orElse (EventFormData.category data) None |}.

Definition eventToFormData (event : CalendarEvent.t) : result EventFormData.t :=
  let* startDate := formatDateForInput (CalendarEvent.startDate event) in
  let* startTime := formatTimeForInput (CalendarEvent.startDate event) in
  let* endDate := formatDateForInput (CalendarEvent.endDate event) in
  let* endTime := formatTimeForInput (CalendarEvent.endDate event) in
  Ok {| EventFormData.title := CalendarEvent.title event;
        EventFormData.description := default "" (CalendarEvent.description event);
        EventFormData.startDate := startDate;
        EventFormData.startTime := startTime;
        EventFormData.endDate := endDate;
        EventFormData.endTime := endTime;
        EventFormData.color :=
          default (default "#3b82f6" EventUtils.firstColor) (CalendarEvent.color event);
        EventFormData.category := default "" (CalendarEvent.category event) |}.

End InZone.

End Zoned.
(** * Properties *)

Import ES DateFns DateUtils EventUtils.

(** ** Checking a finite range by evaluation *)

(** [f] holds of the [n] integers from [lo] on. *)
Fixpoint forallFrom (n : nat) (lo : Z) (f : Z -> bool) : bool :=
  match n with
  | O => true
  | S n' => f lo && forallFrom n' (lo + 1) f
  end.

(** ** Form validation *)

Section Validation.
Implicit Type data : EventFormData.t.

Definition allDateTimePresent data : bool :=
  JSString.truthy (EventFormData.startDate data)
  && JSString.truthy (EventFormData.startTime data)
  && JSString.truthy (EventFormData.endDate data)
  && JSString.truthy (EventFormData.endTime data).

Definition formStart data : Date :=
  parseDateTimeInputs (EventFormData.startDate data) (EventFormData.startTime data).

Definition formEnd data : Date :=
  parseDateTimeInputs (EventFormData.endDate data) (EventFormData.endTime data).

Definition titlePresent data : bool :=
  JSString.truthy (JSString.trim (EventFormData.title data)).

(** A title of 101 code units, and one of a letter followed by 100 spaces. *)
Definition longTitle : string := JSString.repeat_char "a" 101.

Definition paddedTitle : string :=
  String "a" (JSString.repeat_char " " 100).

Definition sampleFields (title endTime : string) : EventFormData.t :=
  {| EventFormData.title := title;
     EventFormData.description := "";
     EventFormData.startDate := "2024-03-10";
     EventFormData.startTime := "09:00";
     EventFormData.endDate := "2024-03-10";
     EventFormData.endTime := endTime;
     EventFormData.color := "#3b82f6";
     EventFormData.category := "" |}.
End Validation.

(** ** Layout percentages *)

(** The percentage of a 24-hour column that [n] whole minutes are. *)
Definition percentOfDay (n : Z) : float :=
  (toFloat n / toFloat (24 * 60) * 100)%float.

Definition inZeroToHundredOpen (p : float) : bool :=
  (PrimFloat.leb 0 p && PrimFloat.ltb p 100)%bool.

Definition inZeroOpenToHundred (p : float) : bool :=
  (PrimFloat.ltb 0 p && PrimFloat.leb p 100)%bool.

(** ** Event bucketing *)

Definition startTimeOf (event : CalendarEvent.t) : option Z :=
  getTime (CalendarEvent.startDate event).

Definition endTimeOf (event : CalendarEvent.t) : option Z :=
  getTime (CalendarEvent.endDate event).

(** Both instants of the event are valid and End is not before Start. *)
Definition endNotBeforeStart (event : CalendarEvent.t) : bool :=
  leNumber (startTimeOf event) (endTimeOf event).

(** [e.start <= endOfDay(d)] and [e.end >= startOfDay(d)]. *)
Definition touchesDate (date : Date) (event : CalendarEvent.t) : bool :=
  leNumber (startTimeOf event) (getTime (endOfDay date))
  && leNumber (getTime (startOfDay date)) (endTimeOf event).

(** [e.start <= endOfDay(rangeEnd)] and [e.end >= startOfDay(rangeStart)]. *)
Definition touchesRange (rangeStart rangeEnd : Date) (event : CalendarEvent.t) : bool :=
  leNumber (startTimeOf event) (getTime (endOfDay rangeEnd))
  && leNumber (getTime (startOfDay rangeStart)) (endTimeOf event).

(** The elements whose sort key is [s], and the order of two keys. *)
Definition keyIs {A : Type} (key : A -> option Z) (s : Z) (x : A) : bool :=
  match key x with
  | Some k => k =? s
  | None => false
  end.

Definition keyLe {A : Type} (key : A -> option Z) (a b : A) : Prop :=
  leNumber (key a) (key b) = true.

Definition startsAt : Z -> CalendarEvent.t -> bool := keyIs startTimeOf.

Definition startsNoLater : CalendarEvent.t -> CalendarEvent.t -> Prop :=
  keyLe startTimeOf.

Definition sampleEvent (id : string) (startDate endDate : Date) : CalendarEvent.t :=
  {| CalendarEvent.id := id;
     CalendarEvent.title := "Team Standup";
     CalendarEvent.description := Some "Daily sync with the team";
     CalendarEvent.startDate := startDate;
     CalendarEvent.endDate := endDate;
     CalendarEvent.color := Some "#3b82f6";
     CalendarEvent.category := Some "Meeting" |}.

(** ** Month grid *)

(** The local midnights of [count] consecutive days, from day number
    [first] on. *)
Definition consecutiveDays (first : Z) (count : nat) : list Date :=
  map (fun i => Time (MakeDate (first + Z.of_nat i) 0)) (seq 0 count).

(** Every day of month [m] (0 = January) of year [y], at local midnight, in
    order. *)
Definition monthDays (y m : Z) : list Date :=
  map (fun j => newDate y m (1 + Z.of_nat j) 0 0) (seq 0 (Z.to_nat (daysInMonth y m))).

(** ** Form fields and events *)

(** The text of [n] in two and in four decimal digits. *)
Definition twoDigits (n : Z) : string :=
  String (JSString.digitChar (n / 10)) (String (JSString.digitChar (n mod 10)) EmptyString).

Definition fourDigits (n : Z) : string :=
  String (JSString.digitChar (n / 1000))
    (String (JSString.digitChar ((n / 100) mod 10)) (twoDigits (n mod 100))).

Definition dateText (year month day : Z) : string :=
  String.concat "" [addLeadingZeros year 4; "-"; addLeadingZeros (month + 1) 2; "-";
                    addLeadingZeros day 2].

Definition timeText (hours minutes : Z) : string :=
  String.concat "" [addLeadingZeros hours 2; ":"; addLeadingZeros minutes 2].

(** [HH:mm] with the hour at most 23 and the minute at most 59. *)
Definition validTimeOfDay (s : string) : bool :=
  match s with
  | String h1 (String h2 (String ":" (String m1 (String m2 EmptyString)))) =>
      match JSString.digitsValue 0 (String h1 (String h2 EmptyString)),
            JSString.digitsValue 0 (String m1 (String m2 EmptyString)) with
      | Some h, Some m => (h <=? 23) && (m <=? 59)
      | _, _ => false
      end
  | _ => false
  end.

(** The two parts of a printed time of day read back as its hour and minute. *)
Definition timeTextCheck (hours : Z) : bool :=
  forallFrom 60 0 (fun minutes =>
    match map JSString.Number (JSString.split ":" (timeText hours minutes)) with
    | [Some h; Some m] => (h =? hours) && (m =? minutes)
    | _ => false
    end).

(** The default start and end times for a base hour: what the source
    builds, that it is a time of day, and that it is the printed time one
    and two hours later. *)
Definition defaultTimeCheck (hours : Z) : bool :=
  let startHour := Some (hours + 1) in
  let startTime :=
    String.append (JSString.padStart 2 "0" (JSString.ofNumber startHour)) ":00" in
  let endTime :=
    String.append
      (JSString.padStart 2 "0" (JSString.ofNumber (option_map (fun h => h + 1) startHour)))
      ":00" in
  validTimeOfDay startTime && validTimeOfDay endTime
  && String.eqb startTime (timeText (hours + 1) 0)
  && String.eqb endTime (timeText (hours + 2) 0).

Definition trimmed (s : string) : bool := String.eqb (JSString.trim s) s.

(** A valid instant on a whole minute of a year from 1 to 9999. *)
Definition onWholeMinute (date : Date) : bool :=
  match date with
  | Time t =>
      (t mod msPerMinute =? 0) && (1 <=? YearFromTime t) && (YearFromTime t <=? 9999)
  | InvalidDate => false
  end.

(** An event as the form would commit it: trimmed title, trimmed and
    non-empty description when there is one, a colour, a non-empty category
    when there is one, start and end on whole minutes. *)
Definition asCommitted (event : CalendarEvent.t) : bool :=
  trimmed (CalendarEvent.title event)
  && match CalendarEvent.description event with
     | Some s => trimmed s && JSString.truthy s
     | None => true
     end
  && match CalendarEvent.color event with
     | Some c => JSString.truthy c
     | None => false
     end
  && match CalendarEvent.category event with
     | Some c => JSString.truthy c
     | None => true
     end
  && onWholeMinute (CalendarEvent.startDate event)
  && onWholeMinute (CalendarEvent.endDate event).

(** An event as the data model has it: a title that is not empty and an End
    strictly after its Start. *)
Definition validEvent (event : CalendarEvent.t) : bool :=
  JSString.truthy (CalendarEvent.title event)
  && ltNumber (startTimeOf event) (endTimeOf event).

(** Event to fields and back, keeping the identity. *)
Definition roundTrip (freshId : string) (event : CalendarEvent.t) : result CalendarEvent.t :=
  let* fields := eventToFormData event in
  Ok (formDataToEvent freshId fields (Some (CalendarEvent.id event))).

(** A stand-up on 10 March 2024 from 09:00:30 to 09:30. *)
Definition offMinuteEvent : CalendarEvent.t :=
  sampleEvent "evt-1"
    (Time (MakeDate (MakeDay 2024 2 10) (MakeTime 9 0 30 0)))
    (newDate 2024 2 10 9 30).

Definition onMinuteEvent : CalendarEvent.t :=
  sampleEvent "evt-1" (newDate 2024 2 10 9 0) (newDate 2024 2 10 9 30).

(** The start of the hour that holds [t]. *)
Definition topOfHour (t : Z) : Z := t - t mod msPerHour.

(** 10 March 2024 at 23:30 and at 14:30, and 12 March 2024 at midnight. *)
Definition lateEvening : Date := newDate 2024 2 10 23 30.
Definition afternoon : Date := newDate 2024 2 10 14 30.
Definition clickedDay : Date := newDate 2024 2 12 0 0.

(** The week of Sunday 3 to Saturday 9 March 2024, and an event from the
    Saturday before it to the Sunday after it. *)
Definition sampleWeek : list Date := getWeekDays (newDate 2024 2 6 12 0).

Definition spanningEvent : CalendarEvent.t :=
  sampleEvent "evt-9" (newDate 2024 2 2 10 0) (newDate 2024 2 10 10 0).

(** Events around 10 March 2024, not in order of start: two that start at
    09:00 that day, one in the afternoon, one on the next day, and one that
    runs from 8 to 12 March. *)
Definition sampleEvents : list CalendarEvent.t :=
  [ sampleEvent "evt-2" (newDate 2024 2 10 14 0) (newDate 2024 2 10 15 30);
    sampleEvent "evt-1" (newDate 2024 2 10 9 0) (newDate 2024 2 10 9 30);
    sampleEvent "evt-3" (newDate 2024 2 11 10 0) (newDate 2024 2 11 11 30);
    sampleEvent "evt-4" (newDate 2024 2 10 9 0) (newDate 2024 2 10 10 0);
    sampleEvent "evt-5" (newDate 2024 2 8 18 0) (newDate 2024 2 12 8 0) ].

(** ** In a local time zone *)

(** The local calendar date of a date: year, month (0 = January) and day of
    the month. *)
Definition localDate (tz : Zone.t) (d : Date) : option (Z * Z * Z) :=
  option_map (fun l => civilOfDay (Day l)) (getTime (Zoned.toLocal tz d)).

(** The local hour and minute of a date. *)
Definition localTimeOfDay (tz : Zone.t) (d : Date) : option (Z * Z) :=
  option_map (fun l => (HourFromTime l, MinFromTime l)) (getTime (Zoned.toLocal tz d)).

(** The local dates of [count] consecutive calendar days from the day
    numbered [first]. *)
Definition consecutiveDates (first : Z) (count : nat) : list (option (Z * Z * Z)) :=
  map (fun i => Some (civilOfDay (first + Z.of_nat i))) (seq 0 count).

(** The event with its start and its end in local time. *)
Definition inLocalTime (tz : Zone.t) (event : CalendarEvent.t) : CalendarEvent.t :=
  {| CalendarEvent.id := CalendarEvent.id event;
     CalendarEvent.title := CalendarEvent.title event;
     CalendarEvent.description := CalendarEvent.description event;
     CalendarEvent.startDate := Zoned.toLocal tz (CalendarEvent.startDate event);
     CalendarEvent.endDate := Zoned.toLocal tz (CalendarEvent.endDate event);
     CalendarEvent.color := CalendarEvent.color event;
     CalendarEvent.category := CalendarEvent.category event |}.

(** An event with a local start and a local end, as the zone stores it. *)
Definition inUTC (tz : Zone.t) (event : CalendarEvent.t) : CalendarEvent.t :=
  {| CalendarEvent.id := CalendarEvent.id event;
     CalendarEvent.title := CalendarEvent.title event;
     CalendarEvent.description := CalendarEvent.description event;
     CalendarEvent.startDate := Zoned.ofLocal tz (CalendarEvent.startDate event);
     CalendarEvent.endDate := Zoned.ofLocal tz (CalendarEvent.endDate event);
     CalendarEvent.color := CalendarEvent.color event;
     CalendarEvent.category := CalendarEvent.category event |}.

(** Event to fields and back in a zone, keeping the identity. *)
Definition roundTripIn (tz : Zone.t) (freshId : string) (event : CalendarEvent.t)
  : result CalendarEvent.t :=
  let* fields := Zoned.eventToFormData tz event in
  Ok (Zoned.formDataToEvent tz freshId fields (Some (CalendarEvent.id event))).
Ltac split_ifs :=
  repeat match goal with
         | |- context [if ?b then _ else _] => destruct b eqn:?
         end.

(** ** Validation of the title *)

(** C9. The title is required on its trimmed text but limited to 100 code
    units on its raw text: fields whose title trims to a non-empty string of
    at most 100 code units, but is longer than 100 untrimmed, get the title
    error of the length check, while [formDataToEvent] would commit only the
    trimmed title. *)
Theorem validate_title_limit_untrimmed :
  forall (freshId : string) (data : EventFormData.t) (existingId : option string),
    titlePresent data = true ->
    (String.length (JSString.trim (EventFormData.title data)) <= 100)%nat ->
    (100 < String.length (EventFormData.title data))%nat ->
    validateEventForm data !! "title" = Some "Title must be 100 characters or less"
    /\ CalendarEvent.title (formDataToEvent freshId data existingId)
       = JSString.trim (EventFormData.title data).
Proof.
  intros freshId data existingId Hpresent _ Hlong.
  split; [| reflexivity].
  unfold validateEventForm.
  unfold titlePresent in Hpresent. rewrite Hpresent. cbn [negb].
  apply Nat.ltb_lt in Hlong. rewrite Hlong.
  split_ifs; simplify_map_eq; reflexivity.
Qed.

Lemma validate_title_limit_untrimmed_witness :
  validateEventForm (sampleFields paddedTitle "10:00") !! "title"
    = Some "Title must be 100 characters or less"
  /\ CalendarEvent.title (formDataToEvent "evt-new" (sampleFields paddedTitle "10:00") None)
     = JSString.trim paddedTitle.
Proof.
  apply (validate_title_limit_untrimmed "evt-new" (sampleFields paddedTitle "10:00") None).
  - vm_compute. reflexivity.
  - vm_compute. lia.
  - vm_compute. lia.
Defined.

(** ** Validation of the date and time fields *)

Lemma leNumber_false_of_lt (a b : option Z) :
  ltNumber a b = true -> leNumber b a = false.
Proof.
  destruct a as [x|], b as [y|]; cbn; try discriminate.
  intros H. apply Z.ltb_lt in H. apply Z.leb_gt. exact H.
Qed.

Lemma allDateTimePresent_inv (data : EventFormData.t) :
  allDateTimePresent data = true ->
  JSString.truthy (EventFormData.startDate data) = true
  /\ JSString.truthy (EventFormData.startTime data) = true
  /\ JSString.truthy (EventFormData.endDate data) = true
  /\ JSString.truthy (EventFormData.endTime data) = true.
Proof.
  unfold allDateTimePresent. rewrite !andb_true_iff. tauto.
Qed.

(** C5 (as amended). With all four date and time strings present: when the
    combined End is not after the combined Start, the result carries the
    error ["End must be after start"] on the end-date field; when End is
    strictly after Start, the title is not blank and has at most 100 code
    units, and the description has at most 500, the result is the empty
    mapping. *)
Theorem validate_end_after_start :
  forall data : EventFormData.t,
    allDateTimePresent data = true ->
    (leNumber (getTime (formEnd data)) (getTime (formStart data)) = true ->
     validateEventForm data !! "endDate" = Some "End must be after start")
    /\ (ltNumber (getTime (formStart data)) (getTime (formEnd data)) = true ->
        titlePresent data = true ->
        (String.length (EventFormData.title data) <= 100)%nat ->
        (String.length (EventFormData.description data) <= 500)%nat ->
        validateEventForm data = ∅).
Proof.
  intros data Hall.
  pose proof (allDateTimePresent_inv data Hall) as (Hsd & Hst & Hed & Het).
  split.
  - intros Hle. unfold validateEventForm.
    unfold allDateTimePresent in Hall. rewrite Hall.
    unfold formEnd, formStart in Hle. rewrite Hle.
    apply lookup_insert_eq.
  - intros Hlt Htitle Hlen Hdesc. unfold validateEventForm.
    apply leNumber_false_of_lt in Hlt. unfold formEnd, formStart in Hlt.
    unfold titlePresent in Htitle.
    rewrite Htitle, Hsd, Hst, Hed, Het, Hlt. cbn [negb andb].
    apply Nat.ltb_ge in Hlen. rewrite Hlen.
    apply Nat.ltb_ge in Hdesc. rewrite Hdesc.
    rewrite andb_false_r. reflexivity.
Qed.

Lemma validate_end_after_start_witness :
  validateEventForm (sampleFields "Standup" "08:00") !! "endDate"
    = Some "End must be after start"
  /\ validateEventForm (sampleFields "Standup" "10:00") = ∅.
Proof.
  split.
  - apply (validate_end_after_start (sampleFields "Standup" "08:00")).
    + vm_compute. reflexivity.
    + vm_compute. reflexivity.
  - apply (validate_end_after_start (sampleFields "Standup" "10:00")).
    + vm_compute. reflexivity.
    + vm_compute. reflexivity.
    + vm_compute. reflexivity.
    + vm_compute. lia.
    + vm_compute. lia.
Defined.

(** C5 as stated fails: every required field is present and End is strictly
    after Start, yet the mapping is not empty, because the title has 101 code
    units. *)
Lemma validate_end_after_start_counterexample :
  let data := sampleFields longTitle "10:00" in
  titlePresent data = true
  /\ allDateTimePresent data = true
  /\ ltNumber (getTime (formStart data)) (getTime (formEnd data)) = true
  /\ validateEventForm data !! "title" = Some "Title must be 100 characters or less"
  /\ validateEventForm data <> ∅.
Proof.
  repeat split; try (vm_compute; reflexivity).
  vm_compute. discriminate.
Qed.

(** ** Layout percentages *)

Lemma forallFrom_spec (n : nat) (f : Z -> bool) :
  forall lo z, forallFrom n lo f = true -> lo <= z < lo + Z.of_nat n -> f z = true.
Proof.
  induction n as [| n IH]; intros lo z Hall Hz; [lia |].
  cbn [forallFrom] in Hall. apply andb_true_iff in Hall. destruct Hall as [Hlo Hrest].
  destruct (Z.eq_dec z lo) as [-> | Hne]; [exact Hlo |].
  apply (IH (lo + 1)); [exact Hrest | lia].
Qed.

Lemma percentOfDay_within_day (n : Z) :
  0 <= n < 1440 -> inZeroToHundredOpen (percentOfDay n) = true.
Proof.
  apply (forallFrom_spec 1440 (fun n => inZeroToHundredOpen (percentOfDay n)) 0).
  vm_compute. reflexivity.
Qed.

Lemma percentOfDay_duration (n : Z) :
  1 <= n <= 1440 -> inZeroOpenToHundred (percentOfDay n) = true.
Proof.
  intros H.
  apply (forallFrom_spec 1440 (fun n => inZeroOpenToHundred (percentOfDay n)) 1);
    [vm_compute; reflexivity | lia].
Qed.

Lemma HourFromTime_range (t : Z) : 0 <= HourFromTime t < 24.
Proof. unfold HourFromTime. apply Z.mod_pos_bound. lia. Qed.

Lemma MinFromTime_range (t : Z) : 0 <= MinFromTime t < 60.
Proof. unfold MinFromTime. apply Z.mod_pos_bound. lia. Qed.

Lemma HourFromTime_within_day (t : Z) :
  HourFromTime (TimeWithinDay t) = HourFromTime t.
Proof.
  unfold HourFromTime, TimeWithinDay, msPerDay, msPerHour.
  Z.div_mod_to_equations. lia.
Qed.

Lemma MinFromTime_within_day (t : Z) :
  MinFromTime (TimeWithinDay t) = MinFromTime t.
Proof.
  unfold MinFromTime, TimeWithinDay, msPerDay, msPerMinute.
  Z.div_mod_to_equations. lia.
Qed.

Lemma HourFromTime_MakeDate (day tm : Z) :
  0 <= tm < msPerDay -> HourFromTime (MakeDate day tm) = tm / msPerHour.
Proof.
  unfold HourFromTime, MakeDate, msPerDay, msPerHour. intros H.
  Z.div_mod_to_equations. lia.
Qed.

Lemma MinFromTime_MakeDate (day tm : Z) :
  0 <= tm < msPerDay -> MinFromTime (MakeDate day tm) = (tm / msPerMinute) mod 60.
Proof.
  unfold MinFromTime, MakeDate, msPerDay, msPerMinute. intros H.
  Z.div_mod_to_equations. lia.
Qed.

Lemma getTimeSlotPosition_Time (t : Z) :
  getTimeSlotPosition (Time t) = percentOfDay (HourFromTime t * 60 + MinFromTime t).
Proof. reflexivity. Qed.

Lemma getTimeSlotPosition_at (day h m : Z) :
  0 <= h < 24 -> 0 <= m < 60 ->
  getTimeSlotPosition (Time (MakeDate day (MakeTime h m 0 0))) = percentOfDay (h * 60 + m).
Proof.
  intros Hh Hm. rewrite getTimeSlotPosition_Time.
  assert (Htm : 0 <= MakeTime h m 0 0 < msPerDay)
    by (unfold MakeTime, msPerHour, msPerMinute, msPerSecond, msPerDay; lia).
  rewrite HourFromTime_MakeDate, MinFromTime_MakeDate by exact Htm.
  f_equal.
  unfold MakeTime, msPerHour, msPerMinute, msPerSecond.
  Z.div_mod_to_equations. lia.
Qed.

(** C7. For every instant the vertical position is
    [(hours * 60 + minutes) / 1440 * 100] in binary64 arithmetic; it is the
    position of the instant's time of day alone; it lies in [0, 100); it is 0
    at midnight, 50 at 12:00 and strictly between 99 and 100 at 23:59, on
    every day. *)
Theorem getTimeSlotPosition_spec :
  forall t day : Z,
    getTimeSlotPosition (Time t)
      = (toFloat (HourFromTime t * 60 + MinFromTime t) / toFloat 1440 * 100)%float
    /\ getTimeSlotPosition (Time t) = getTimeSlotPosition (Time (TimeWithinDay t))
    /\ PrimFloat.leb 0 (getTimeSlotPosition (Time t)) = true
    /\ PrimFloat.ltb (getTimeSlotPosition (Time t)) 100 = true
    /\ getTimeSlotPosition (Time (MakeDate day (MakeTime 0 0 0 0))) = 0%float
    /\ getTimeSlotPosition (Time (MakeDate day (MakeTime 12 0 0 0))) = 50%float
    /\ PrimFloat.ltb 99 (getTimeSlotPosition (Time (MakeDate day (MakeTime 23 59 0 0)))) = true
    /\ PrimFloat.ltb (getTimeSlotPosition (Time (MakeDate day (MakeTime 23 59 0 0)))) 100 = true.
Proof.
  intros t day.
  assert (Hrange : inZeroToHundredOpen (getTimeSlotPosition (Time t)) = true).
  { rewrite getTimeSlotPosition_Time.
    pose proof (HourFromTime_range t) as Hh. pose proof (MinFromTime_range t) as Hm.
    apply percentOfDay_within_day. lia. }
  apply andb_true_iff in Hrange. destruct Hrange as [Hlo Hhi].
  split; [reflexivity |].
  split.
  { rewrite !getTimeSlotPosition_Time.
    rewrite HourFromTime_within_day, MinFromTime_within_day. reflexivity. }
  split; [exact Hlo |]. split; [exact Hhi |].
  rewrite !getTimeSlotPosition_at by lia.
  repeat split; vm_compute; reflexivity.
Qed.

(** A stand-up from 09:00 to 09:30 sits at 37.5 per cent and is a little
    over 2 per cent high (30/1440 of the column). *)
Example layout_of_standup :
  getTimeSlotPosition (newDate 2024 2 10 9 0) = 37.5%float
  /\ getEventHeight (newDate 2024 2 10 9 0) (newDate 2024 2 10 9 30)
     = (30 / 1440 * 100)%float
  /\ PrimFloat.ltb 2.0625 (getEventHeight (newDate 2024 2 10 9 0) (newDate 2024 2 10 9 30))
     = true
  /\ PrimFloat.ltb (getEventHeight (newDate 2024 2 10 9 0) (newDate 2024 2 10 9 30)) 2.125
     = true.
Proof. repeat split; vm_compute; reflexivity. Qed.




(** ** The stable sort by key *)

Section SortByKey.
Context {A : Type}.
Variable key : A -> option Z.

Let compareFn (a b : A) : option Z := subNumber (key a) (key b).

Lemma insertSorted_greater (x y : A) :
  ltNumber (Some 0) (compareFn x y) = true ->
  exists kx ky, key x = Some kx /\ key y = Some ky /\ ky < kx.
Proof using Type.
  unfold compareFn. destruct (key x) as [kx|], (key y) as [ky|]; cbn; try discriminate.
  intros H. apply Z.ltb_lt in H. exists kx, ky. repeat split. lia.
Qed.

Lemma insertSorted_Permutation (x : A) (l : list A) :
  Permutation (JSArray.insertSorted compareFn x l) (x :: l).
Proof using Type.
  induction l as [| y l IH]; cbn [JSArray.insertSorted].
  - apply Permutation_refl.
  - destruct (ltNumber (Some 0) (compareFn x y)).
    + apply perm_trans with (y :: x :: l).
      * apply perm_skip. exact IH.
      * apply perm_swap.
    + apply Permutation_refl.
Qed.

Lemma sort_Permutation (l : list A) :
  Permutation (JSArray.sort compareFn l) l.
Proof using Type.
  induction l as [| x l IH]; cbn [JSArray.sort].
  - apply perm_nil.
  - apply perm_trans with (x :: JSArray.sort compareFn l).
    + apply insertSorted_Permutation.
    + apply perm_skip. exact IH.
Qed.

(** Stability: an element never passes one with the same key. *)
Lemma insertSorted_same_key (s : Z) (x : A) (l : list A) :
  List.filter (keyIs key s) (JSArray.insertSorted compareFn x l)
  = List.filter (keyIs key s) (x :: l).
Proof using Type.
  induction l as [| y l IH]; [reflexivity |].
  cbn [JSArray.insertSorted].
  destruct (ltNumber (Some 0) (compareFn x y)) eqn:Hgt; [| reflexivity].
  apply insertSorted_greater in Hgt. destruct Hgt as (kx & ky & Hx & Hy & Hlt).
  cbn [List.filter] in *. rewrite IH.
  unfold keyIs. rewrite Hx, Hy.
  destruct (Z.eqb_spec kx s), (Z.eqb_spec ky s); try reflexivity. lia.
Qed.

Lemma sort_stable (s : Z) (l : list A) :
  List.filter (keyIs key s) (JSArray.sort compareFn l) = List.filter (keyIs key s) l.
Proof using Type.
  induction l as [| x l IH]; [reflexivity |].
  cbn [JSArray.sort]. rewrite insertSorted_same_key.
  cbn [List.filter]. rewrite IH. reflexivity.
Qed.

Lemma insertSorted_Forall (P : A -> Prop) (x : A) (l : list A) :
  P x -> Forall P l -> Forall P (JSArray.insertSorted compareFn x l).
Proof using Type.
  intros Hx Hl.
  apply (Permutation_Forall (Permutation_sym (insertSorted_Permutation x l))).
  constructor; assumption.
Qed.

Lemma insertSorted_StronglySorted (x : A) (l : list A) :
  is_Some (key x) -> Forall (fun y => is_Some (key y)) l ->
  StronglySorted (keyLe key) l ->
  StronglySorted (keyLe key) (JSArray.insertSorted compareFn x l).
Proof using Type.
  intros [kx Hx] Hvalid Hsorted.
  induction Hsorted as [| y l Hsorted IH Hy]; cbn [JSArray.insertSorted].
  - constructor; constructor.
  - apply Forall_cons_iff in Hvalid. destruct Hvalid as [[ky Hky] Hvalid].
    destruct (ltNumber (Some 0) (compareFn x y)) eqn:Hgt.
    + apply insertSorted_greater in Hgt.
      destruct Hgt as (kx' & ky' & Hx' & Hy' & Hlt).
      constructor; [apply IH; exact Hvalid |].
      apply insertSorted_Forall; [| exact Hy].
      unfold keyLe. rewrite Hx', Hy'. cbn. apply Z.leb_le. lia.
    + assert (Hle : kx <= ky).
      { unfold compareFn in Hgt. rewrite Hx, Hky in Hgt. cbn in Hgt.
        apply Z.ltb_ge in Hgt. lia. }
      constructor; [constructor; assumption |].
      constructor.
      * unfold keyLe. rewrite Hx, Hky. cbn. apply Z.leb_le. exact Hle.
      * eapply List.Forall_impl; [| exact Hy].
        intros z Hz. unfold keyLe in *. rewrite Hx. rewrite Hky in Hz.
        destruct (key z) as [kz|]; cbn in *; [| discriminate].
        apply Z.leb_le in Hz. apply Z.leb_le. lia.
Qed.

Lemma sort_StronglySorted (l : list A) :
  Forall (fun y => is_Some (key y)) l ->
  StronglySorted (keyLe key) (JSArray.sort compareFn l).
Proof using Type.
  induction l as [| x l IH]; intros Hvalid; cbn [JSArray.sort].
  - constructor.
  - apply Forall_cons_iff in Hvalid. destruct Hvalid as [Hx Hvalid].
    apply insertSorted_StronglySorted.
    + exact Hx.
    + apply (Permutation_Forall (Permutation_sym (sort_Permutation l))). exact Hvalid.
    + apply IH. exact Hvalid.
Qed.
End SortByKey.

(** ** Single-date bucketing *)

Lemma startOfDay_Time (t : Z) :
  startOfDay (Time t) = Time (t - t mod msPerDay).
Proof.
  cbn. f_equal. unfold MakeDate, MakeTime, Day, msPerDay, msPerHour, msPerMinute, msPerSecond.
  Z.div_mod_to_equations. lia.
Qed.

Lemma endOfDay_Time (t : Z) :
  endOfDay (Time t) = Time (t - t mod msPerDay + (msPerDay - 1)).
Proof.
  cbn. f_equal. unfold MakeDate, MakeTime, Day, msPerDay, msPerHour, msPerMinute, msPerSecond.
  Z.div_mod_to_equations. lia.
Qed.

Lemma endNotBeforeStart_inv (event : CalendarEvent.t) :
  endNotBeforeStart event = true ->
  exists s t,
    CalendarEvent.startDate event = Time s /\ CalendarEvent.endDate event = Time t /\ s <= t.
Proof.
  unfold endNotBeforeStart, startTimeOf, endTimeOf.
  destruct (CalendarEvent.startDate event) as [s|], (CalendarEvent.endDate event) as [t|];
    cbn; try discriminate.
  intros H. apply Z.leb_le in H. exists s, t. auto.
Qed.

(** On an event whose End is not before its Start, the three-way test of
    [getEventsForDate] is the interval intersection test. *)
Lemma getEventsForDate_test (date : Date) (event : CalendarEvent.t) :
  endNotBeforeStart event = true ->
  isWithinInterval (startOfDay date)
    {| start := startOfDay (CalendarEvent.startDate event);
       end_ := endOfDay (CalendarEvent.endDate event) |}
  || isSameDay (CalendarEvent.startDate event) date
  || isSameDay (CalendarEvent.endDate event) date
  = touchesDate date event.
Proof.
  intros Hvalid. apply endNotBeforeStart_inv in Hvalid.
  destruct Hvalid as (s & t & Hs & Ht & Hst).
  unfold touchesDate, startTimeOf, endTimeOf, isSameDay, isWithinInterval.
  rewrite Hs, Ht. cbn [start end_].
  destruct date as [d|].
  - rewrite !startOfDay_Time, !endOfDay_Time. cbn [getTime leNumber].
    apply eq_iff_eq_true.
    rewrite !orb_true_iff, !andb_true_iff, !Z.leb_le, !Z.eqb_eq.
    unfold msPerDay. Z.div_mod_to_equations. lia.
  - rewrite !startOfDay_Time. reflexivity.
Qed.



(** The bucket of 10 March 2024: the event that runs across the day first,
    the two 09:00 events in their input order, then the afternoon one; the
    event of the next day is left out. *)
Example getEventsForDate_sample :
  map CalendarEvent.id (getEventsForDate sampleEvents (newDate 2024 2 10 0 0))
  = ["evt-5"; "evt-1"; "evt-4"; "evt-2"].
Proof. vm_compute. reflexivity. Qed.

(** ** The Gregorian calendar *)

Lemma InLeapYearOf_cases (y : Z) : InLeapYearOf y = 0 \/ InLeapYearOf y = 1.
Proof. unfold InLeapYearOf. destruct (DaysInYear y =? 366); auto. Qed.

Lemma InLeapYearOf_eq (y : Z) :
  InLeapYearOf y
  = if (y mod 4 =? 0) && (negb (y mod 100 =? 0) || (y mod 400 =? 0)) then 1 else 0.
Proof.
  unfold InLeapYearOf, DaysInYear.
  destruct (y mod 4 =? 0), (y mod 100 =? 0), (y mod 400 =? 0); reflexivity.
Qed.

(** A year after [y] starts [DaysInYear y] days after [y] does. *)
Lemma DayFromYear_succ (y : Z) :
  DayFromYear (y + 1) = DayFromYear y + 365 + InLeapYearOf y.
Proof.
  rewrite InLeapYearOf_eq. unfold DayFromYear.
  destruct (Z.eqb_spec (y mod 4) 0) as [H4 | H4];
    destruct (Z.eqb_spec (y mod 100) 0) as [H100 | H100];
    destruct (Z.eqb_spec (y mod 400) 0) as [H400 | H400];
    cbn [negb andb orb]; Z.div_mod_to_equations; lia.
Qed.

Lemma DayFromYear_lt (y y' : Z) : y < y' -> DayFromYear y + 365 * (y' - y) <= DayFromYear y'.
Proof.
  unfold DayFromYear. intros H. Z.div_mod_to_equations. lia.
Qed.

(** The year of a day is the one the day falls in. *)
Lemma YearOfDay_spec (n : Z) :
  DayFromYear (YearOfDay n) <= n < DayFromYear (YearOfDay n + 1).
Proof.
  unfold YearOfDay.
  set (y := 1970 + 400 * n / 146097).
  assert (Hlo : DayFromYear (y - 1) <= n)
    by (unfold DayFromYear, y; Z.div_mod_to_equations; lia).
  assert (Hhi : n < DayFromYear (y + 2))
    by (unfold DayFromYear, y; Z.div_mod_to_equations; lia).
  destruct (Z.ltb_spec n (DayFromYear y)) as [Hlt | Hge].
  - replace (y - 1 + 1) with y by lia. lia.
  - destruct (Z.leb_spec (DayFromYear (y + 1)) n) as [Hle | Hgt].
    + replace (y + 1 + 1) with (y + 2) by lia. lia.
    + lia.
Qed.

Lemma YearOfDay_unique (n y : Z) :
  DayFromYear y <= n < DayFromYear (y + 1) -> YearOfDay n = y.
Proof.
  intros Hy. pose proof (YearOfDay_spec n) as Hn.
  destruct (Z.lt_trichotomy (YearOfDay n) y) as [Hlt | [Heq | Hgt]]; [| exact Heq |].
  - pose proof (DayFromYear_lt (YearOfDay n + 1) y) as Hmono.
    destruct (Z.eq_dec (YearOfDay n + 1) y) as [<- | Hne]; lia.
  - pose proof (DayFromYear_lt (y + 1) (YearOfDay n)) as Hmono.
    destruct (Z.eq_dec (y + 1) (YearOfDay n)) as [Heq | Hne];
      [rewrite <- Heq in Hn |]; lia.
Qed.

Lemma DayWithinYearOf_range (n : Z) :
  0 <= DayWithinYearOf n < 365 + InLeapYearOf (YearOfDay n).
Proof.
  unfold DayWithinYearOf. pose proof (YearOfDay_spec n) as H.
  rewrite DayFromYear_succ in H. lia.
Qed.

Lemma daysInMonth_range (y m : Z) : 28 <= daysInMonth y m <= 31.
Proof.
  unfold daysInMonth. pose proof (InLeapYearOf_cases y).
  destruct (m =? 1); [lia |].
  destruct ((m =? 3) || (m =? 5) || (m =? 8) || (m =? 10)); lia.
Qed.

Lemma MakeDay_date (y m d d' : Z) : MakeDay y m d' = MakeDay y m d + (d' - d).
Proof. unfold MakeDay. lia. Qed.

Lemma MakeDay_month (y m d : Z) :
  0 <= m <= 11 -> MakeDay y m d = DayFromYear y + monthStart (InLeapYearOf y) m + d - 1.
Proof.
  intros Hm. unfold MakeDay.
  replace (m / 12) with 0 by (Z.div_mod_to_equations; lia).
  replace (m mod 12) with m by (Z.div_mod_to_equations; lia).
  replace (y + 0) with y by lia. reflexivity.
Qed.

Ltac month_cases m Hm :=
  let H := fresh "Hcases" in
  assert (H : m = 0 \/ m = 1 \/ m = 2 \/ m = 3 \/ m = 4 \/ m = 5 \/ m = 6 \/ m = 7
              \/ m = 8 \/ m = 9 \/ m = 10 \/ m = 11) by lia;
  clear Hm;
  repeat (destruct H as [-> | H]); [.. | subst m].

(** A month starts [daysInMonth] days before the next one. *)
Lemma monthStart_succ (y m : Z) :
  0 <= m <= 11 ->
  monthStart (InLeapYearOf y) (m + 1) = monthStart (InLeapYearOf y) m + daysInMonth y m.
Proof.
  intros Hm. month_cases m Hm; unfold monthStart, daysInMonth; simpl; lia.
Qed.

(** The month and date tables: the month found for a day within the year
    holds that day. *)
Lemma monthOfYearDay_spec (leap d : Z) :
  0 <= leap <= 1 -> 0 <= d < 365 + leap ->
  0 <= monthOfYearDay leap d <= 11
  /\ monthStart leap (monthOfYearDay leap d) <= d
     < monthStart leap (monthOfYearDay leap d + 1).
Proof.
  intros Hleap Hd. unfold monthOfYearDay.
  repeat match goal with
         | |- context [if ?a <? ?b then _ else _] => destruct (Z.ltb_spec a b)
         end; unfold monthStart; simpl; lia.
Qed.

Lemma monthOfYearDay_unique (leap d m : Z) :
  0 <= leap <= 1 -> 0 <= m <= 11 ->
  monthStart leap m <= d < monthStart leap (m + 1) ->
  monthOfYearDay leap d = m.
Proof.
  intros Hleap Hm. month_cases m Hm; unfold monthStart; simpl; intros Hd;
    unfold monthOfYearDay;
    repeat match goal with
           | |- context [if ?a <? ?b then _ else _] => destruct (Z.ltb_spec a b)
           end; lia.
Qed.

(** Every day number is the day [MakeDay] gives for its own civil date, and
    that date is a real one. *)
Lemma MakeDay_civilOfDay (n : Z) :
  MakeDay (YearOfDay n) (MonthOfDay n) (DateOfDay n) = n
  /\ 0 <= MonthOfDay n <= 11
  /\ 1 <= DateOfDay n <= daysInMonth (YearOfDay n) (MonthOfDay n).
Proof.
  pose proof (DayWithinYearOf_range n) as Hd.
  pose proof (InLeapYearOf_cases (YearOfDay n)) as Hleap.
  destruct (monthOfYearDay_spec (InLeapYearOf (YearOfDay n)) (DayWithinYearOf n)
              ltac:(lia) Hd) as (Hm & Hstart).
  fold (MonthOfDay n) in Hm, Hstart.
  rewrite monthStart_succ in Hstart by exact Hm.
  rewrite MakeDay_month by exact Hm.
  unfold DateOfDay. unfold DayWithinYearOf in *.
  repeat split; lia.
Qed.

(** The first of the next month comes [daysInMonth] days after the first of
    the month. *)
Lemma MakeDay_next_month (y m : Z) :
  0 <= m <= 11 -> MakeDay y (m + 1) 1 = MakeDay y m 1 + daysInMonth y m.
Proof.
  intros Hm. rewrite (MakeDay_month y m) by exact Hm.
  destruct (Z.eq_dec m 11) as [-> | Hne].
  - unfold MakeDay. change ((11 + 1) / 12) with 1. change ((11 + 1) mod 12) with 0.
    rewrite DayFromYear_succ. unfold monthStart, daysInMonth. simpl. lia.
  - rewrite MakeDay_month by lia. rewrite monthStart_succ by exact Hm. lia.
Qed.

(** The civil date of the day [MakeDay] gives for a real date is that date. *)
Lemma civilOfDay_MakeDay (y m d : Z) :
  0 <= m <= 11 -> 1 <= d <= daysInMonth y m ->
  civilOfDay (MakeDay y m d) = (y, m, d).
Proof.
  intros Hm Hd. rewrite MakeDay_month by exact Hm.
  pose proof (InLeapYearOf_cases y) as Hleap.
  pose proof (monthStart_succ y m Hm) as Hnext.
  set (n := DayFromYear y + monthStart (InLeapYearOf y) m + d - 1).
  assert (Hstart : 0 <= monthStart (InLeapYearOf y) m
                   /\ monthStart (InLeapYearOf y) (m + 1) <= 365 + InLeapYearOf y).
  { clear Hnext Hd n. month_cases m Hm; unfold monthStart; simpl; lia. }
  assert (Hyear : YearOfDay n = y).
  { apply YearOfDay_unique. rewrite DayFromYear_succ. unfold n. lia. }
  assert (Hmonth : MonthOfDay n = m).
  { unfold MonthOfDay, DayWithinYearOf. rewrite Hyear.
    apply monthOfYearDay_unique; [lia | exact Hm |]. unfold n. lia. }
  unfold civilOfDay, DateOfDay, DayWithinYearOf. rewrite Hmonth, Hyear.
  f_equal. unfold n. lia.
Qed.

(** 28 January 2024 was a Sunday, 19750 days after 1 January 1970; the
    year 2000 was a leap year and 1900 was not. *)
Example calendar_anchors :
  civilOfDay 0 = (1970, 0, 1)
  /\ newDate 2024 0 28 0 0 = Time 1706400000000
  /\ getDay (Time 1706400000000) = Some 0
  /\ civilOfDay (MakeDay 2000 1 29) = (2000, 1, 29)
  /\ civilOfDay (MakeDay 1900 1 29) = (1900, 2, 1)
  /\ civilOfDay (-1) = (1969, 11, 31).
Proof. repeat split; vm_compute; reflexivity. Qed.

(** ** Days and the [Date] setters *)

Lemma Day_MakeDate (n tm : Z) : 0 <= tm < msPerDay -> Day (MakeDate n tm) = n.
Proof.
  unfold Day, MakeDate, msPerDay. intros H. Z.div_mod_to_equations. lia.
Qed.

Lemma TimeWithinDay_MakeDate (n tm : Z) :
  0 <= tm < msPerDay -> TimeWithinDay (MakeDate n tm) = tm.
Proof.
  unfold TimeWithinDay, MakeDate, msPerDay. intros H. Z.div_mod_to_equations. lia.
Qed.

Lemma MakeDate_Day (t : Z) : MakeDate (Day t) (TimeWithinDay t) = t.
Proof.
  unfold MakeDate, Day, TimeWithinDay, msPerDay. Z.div_mod_to_equations. lia.
Qed.

Lemma TimeWithinDay_range (t : Z) : 0 <= TimeWithinDay t < msPerDay.
Proof. unfold TimeWithinDay. apply Z.mod_pos_bound. unfold msPerDay. lia. Qed.

(** [setDate] with a date counted from the current one moves the day number
    by the same count and keeps the time of day. *)
Lemma setDate_relative (n tm delta : Z) :
  0 <= tm < msPerDay ->
  setDate (DateOfDay n + delta) (Time (MakeDate n tm)) = Time (MakeDate (n + delta) tm).
Proof.
  intros Htm. cbn [setDate onTime]. unfold YearFromTime, MonthFromTime.
  rewrite Day_MakeDate, TimeWithinDay_MakeDate by exact Htm.
  destruct (MakeDay_civilOfDay n) as (Hn & _ & _).
  rewrite (MakeDay_date _ _ (DateOfDay n)), Hn.
  f_equal. f_equal. lia.
Qed.

Lemma setDate_first (n tm : Z) :
  0 <= tm < msPerDay ->
  setDate 1 (Time (MakeDate n tm))
  = Time (MakeDate (MakeDay (YearOfDay n) (MonthOfDay n) 1) tm).
Proof.
  intros Htm. cbn [setDate onTime]. unfold YearFromTime, MonthFromTime.
  rewrite Day_MakeDate, TimeWithinDay_MakeDate by exact Htm. reflexivity.
Qed.

Lemma setHours4_MakeDate (h m s ms n tm : Z) :
  0 <= tm < msPerDay ->
  setHours4 h m s ms (Time (MakeDate n tm)) = Time (MakeDate n (MakeTime h m s ms)).
Proof.
  intros Htm. cbn [setHours4 onTime]. rewrite Day_MakeDate by exact Htm. reflexivity.
Qed.

Lemma getDate_MakeDate (n tm : Z) :
  0 <= tm < msPerDay -> getDate (Time (MakeDate n tm)) = Some (DateOfDay n).
Proof.
  intros Htm. cbn. unfold DateFromTime. rewrite Day_MakeDate by exact Htm. reflexivity.
Qed.

Lemma getDay_MakeDate (n tm : Z) :
  0 <= tm < msPerDay -> getDay (Time (MakeDate n tm)) = Some (WeekDayOfDay n).
Proof.
  intros Htm. cbn. unfold WeekDay. rewrite Day_MakeDate by exact Htm. reflexivity.
Qed.

Lemma endOfDayTime_range : 0 <= MakeTime 23 59 59 999 < msPerDay.
Proof. vm_compute. split; [discriminate | reflexivity]. Qed.

(** ** The date-fns period functions on a day number *)

Lemma startOfWeek_MakeDate (n tm : Z) :
  0 <= tm < msPerDay ->
  startOfWeek (Time (MakeDate n tm)) 0 = Time (MakeDate (n - WeekDayOfDay n) 0).
Proof.
  intros Htm. unfold startOfWeek.
  rewrite getDay_MakeDate, getDate_MakeDate by exact Htm.
  assert (Hwd : 0 <= WeekDayOfDay n < 7) by (apply Z.mod_pos_bound; lia).
  destruct (Z.ltb_spec (WeekDayOfDay n) 0) as [Hneg | _]; [lia |].
  replace (DateOfDay n - (0 + WeekDayOfDay n - 0)) with (DateOfDay n + - WeekDayOfDay n) by lia.
  rewrite setDate_relative, setHours4_MakeDate by exact Htm.
  f_equal.
Qed.

Lemma endOfWeek_MakeDate (n tm : Z) :
  0 <= tm < msPerDay ->
  endOfWeek (Time (MakeDate n tm)) 0
  = Time (MakeDate (n + 6 - WeekDayOfDay n) (MakeTime 23 59 59 999)).
Proof.
  intros Htm. unfold endOfWeek.
  rewrite getDay_MakeDate, getDate_MakeDate by exact Htm.
  assert (Hwd : 0 <= WeekDayOfDay n < 7) by (apply Z.mod_pos_bound; lia).
  destruct (Z.ltb_spec (WeekDayOfDay n) 0) as [Hneg | _]; [lia |].
  rewrite setDate_relative, setHours4_MakeDate by exact Htm.
  f_equal. f_equal. lia.
Qed.

Lemma startOfMonth_Time (t : Z) :
  startOfMonth (Time t)
  = Time (MakeDate (MakeDay (YearFromTime t) (MonthFromTime t) 1) 0).
Proof.
  unfold startOfMonth. rewrite <- (MakeDate_Day t) at 1.
  pose proof (TimeWithinDay_range t) as Htm.
  rewrite setDate_first, setHours4_MakeDate by exact Htm. reflexivity.
Qed.

Lemma endOfMonth_Time (t : Z) :
  endOfMonth (Time t)
  = Time (MakeDate
            (MakeDay (YearFromTime t) (MonthFromTime t) 1
             + daysInMonth (YearFromTime t) (MonthFromTime t) - 1)
            (MakeTime 23 59 59 999)).
Proof.
  unfold endOfMonth. cbn [getFullYear getMonth getTime option_map setFullYear onTime].
  pose proof (TimeWithinDay_range t) as Htm.
  rewrite setHours4_MakeDate by exact Htm.
  f_equal. f_equal.
  destruct (MakeDay_civilOfDay (Day t)) as (_ & Hm & _).
  rewrite (MakeDay_date _ _ 1), MakeDay_next_month by exact Hm. lia.
Qed.

(** ** Runs of consecutive days *)

Lemma consecutiveDays_length (n : Z) (k : nat) : length (consecutiveDays n k) = k.
Proof. unfold consecutiveDays. rewrite length_map, length_seq. reflexivity. Qed.

Lemma consecutiveDays_cons (n : Z) (k : nat) :
  consecutiveDays n (S k) = Time (MakeDate n 0) :: consecutiveDays (n + 1) k.
Proof.
  unfold consecutiveDays. cbn [seq map]. f_equal.
  - f_equal. f_equal. lia.
  - rewrite <- seq_shift, map_map. apply map_ext. intros i. f_equal. f_equal. lia.
Qed.

Lemma consecutiveDays_app (n : Z) (a b : nat) :
  consecutiveDays n (a + b)
  = consecutiveDays n a ++ consecutiveDays (n + Z.of_nat a) b.
Proof.
  revert n. induction a as [| a IH]; intros n.
  - change (consecutiveDays n 0) with (@nil Date). cbn [Nat.add app].
    replace (n + Z.of_nat 0) with n by lia. reflexivity.
  - cbn [Nat.add]. rewrite !consecutiveDays_cons, IH. cbn [app].
    replace (n + 1 + Z.of_nat a) with (n + Z.of_nat (S a)) by lia. reflexivity.
Qed.

Lemma consecutiveDays_snoc (n : Z) (k : nat) :
  consecutiveDays n (S k) = consecutiveDays n k ++ [Time (MakeDate (n + Z.of_nat k) 0)].
Proof.
  replace (S k) with (k + 1)%nat by lia. rewrite consecutiveDays_app.
  f_equal. unfold consecutiveDays. cbn [seq map]. f_equal. f_equal. f_equal. lia.
Qed.

Lemma lastElement_snoc {A : Type} (l : list A) (x : A) :
  JSArray.lastElement (l ++ [x]) = Some x.
Proof. unfold JSArray.lastElement. rewrite rev_unit. reflexivity. Qed.

Lemma MakeDate_le (a b : Z) : a <= b <-> MakeDate a 0 <= MakeDate b 0.
Proof. unfold MakeDate, msPerDay. lia. Qed.

(** The loop of [eachDayOfInterval] from the midnight of day [n], when the
    end of the interval falls on day [n + k - 1]: [k] turns, one per day. *)
Lemma eachDayLoop_days (k : nat) :
  forall (fuel : nat) (n e : Z),
    (k <= fuel)%nat ->
    MakeDate (n + Z.of_nat k - 1) 0 <= e < MakeDate (n + Z.of_nat k) 0 ->
    eachDayLoop fuel (Time (MakeDate n 0)) (Some e) = consecutiveDays n k.
Proof.
  induction k as [| k IH]; intros fuel n e Hfuel He.
  - replace (n + Z.of_nat 0) with n in He by lia.
    destruct fuel as [| fuel]; [reflexivity |].
    cbn [eachDayLoop getTime leNumber].
    destruct (Z.leb_spec (MakeDate n 0) e); [lia | reflexivity].
  - destruct fuel as [| fuel]; [lia |].
    rewrite consecutiveDays_cons.
    cbn [eachDayLoop]. cbn [getTime leNumber].
    assert (Hn : MakeDate n 0 <= e).
    { apply Z.le_trans with (MakeDate (n + Z.of_nat (S k) - 1) 0); [| lia].
      apply (proj1 (MakeDate_le _ _)). lia. }
    apply Z.leb_le in Hn. rewrite Hn.
    assert (Hzero : 0 <= 0 < msPerDay) by (unfold msPerDay; lia).
    rewrite getDate_MakeDate, setDate_relative, setHours4_MakeDate by exact Hzero.
    f_equal. apply IH; [lia |].
    replace (n + 1 + Z.of_nat k) with (n + Z.of_nat (S k)) by lia. exact He.
Qed.

Lemma eachDayOfInterval_days (first last tm : Z) :
  first <= last -> 0 <= tm < msPerDay ->
  eachDayOfInterval (Time (MakeDate first 0)) (Time (MakeDate last tm))
  = consecutiveDays first (Z.to_nat (last - first + 1)).
Proof.
  intros Hle Htm. unfold eachDayOfInterval. cbn [getTime ltNumber].
  assert (Hzero : 0 <= 0 < msPerDay) by (unfold msPerDay; lia).
  destruct (Z.ltb_spec (MakeDate last tm) (MakeDate first 0)) as [Hlt | _].
  { unfold MakeDate, msPerDay in *. lia. }
  rewrite setHours4_MakeDate by exact Hzero. cbn [getTime].
  change (MakeTime 0 0 0 0) with 0.
  apply eachDayLoop_days.
  - apply Z2Nat.inj_le; [lia | | ].
    + unfold MakeDate, msPerDay in *. Z.div_mod_to_equations. lia.
    + unfold MakeDate, msPerDay in *. Z.div_mod_to_equations. lia.
  - rewrite Z2Nat.id by lia. unfold MakeDate, msPerDay in *. lia.
Qed.

Lemma padTo42_days (fuel : nat) :
  forall (n : Z) (k : nat),
    (1 <= k <= 42)%nat -> (42 - k <= fuel)%nat ->
    padTo42 fuel (consecutiveDays n k) = Some (consecutiveDays n 42).
Proof.
  induction fuel as [| fuel IH]; intros n k Hk Hfuel.
  - assert (k = 42)%nat as -> by lia.
    cbn [padTo42]. rewrite consecutiveDays_length. reflexivity.
  - cbn [padTo42]. rewrite consecutiveDays_length.
    destruct (Nat.ltb_spec k 42) as [Hlt | Hge].
    + destruct k as [| k]; [lia |].
      rewrite consecutiveDays_snoc at 1. rewrite lastElement_snoc.
      cbn [getTime option_map ofTime].
      replace (MakeDate (n + Z.of_nat k) 0 + 24 * 60 * 60 * 1000)
        with (MakeDate (n + Z.of_nat (S k)) 0) by (unfold MakeDate, msPerDay; lia).
      rewrite <- consecutiveDays_snoc. apply IH; lia.
    + assert (k = 42)%nat as -> by lia. reflexivity.
Qed.

(** The grid is the 42 days from the Sunday on or before the first of the
    month. *)
Lemma getCalendarGrid_days (t : Z) :
  let first := MakeDay (YearFromTime t) (MonthFromTime t) 1 in
  getCalendarGrid (Time t) = Some (consecutiveDays (first - WeekDayOfDay first) 42).
Proof.
  intros first. unfold getCalendarGrid.
  rewrite startOfMonth_Time, endOfMonth_Time. fold first.
  assert (Hzero : 0 <= 0 < msPerDay) by (unfold msPerDay; lia).
  rewrite startOfWeek_MakeDate by exact Hzero.
  rewrite endOfWeek_MakeDate by exact endOfDayTime_range.
  set (dim := daysInMonth (YearFromTime t) (MonthFromTime t)).
  pose proof (daysInMonth_range (YearFromTime t) (MonthFromTime t)) as Hdim. fold dim in Hdim.
  set (last := first + dim - 1).
  assert (Hcount : 1 <= last + 6 - WeekDayOfDay last - (first - WeekDayOfDay first) + 1 <= 42).
  { unfold WeekDayOfDay, last. Z.div_mod_to_equations. lia. }
  rewrite eachDayOfInterval_days; [| lia | exact endOfDayTime_range].
  rewrite padTo42_days by lia.
  cbn [option_map]. f_equal.
Qed.

Lemma monthDays_consecutive (y m : Z) :
  monthDays y m = consecutiveDays (MakeDay y m 1) (Z.to_nat (daysInMonth y m)).
Proof.
  unfold monthDays, consecutiveDays. apply map_ext. intros j.
  unfold newDate. f_equal. f_equal. rewrite (MakeDay_date y m 1). lia.
Qed.

Lemma In_consecutiveDays (n : Z) (k : nat) (x : Z) :
  In (Time (MakeDate x 0)) (consecutiveDays n k) <-> n <= x < n + Z.of_nat k.
Proof.
  unfold consecutiveDays. rewrite in_map_iff. split.
  - intros (i & Heq & Hin). apply in_seq in Hin.
    injection Heq as Heq. unfold MakeDate, msPerDay in Heq. lia.
  - intros Hx. exists (Z.to_nat (x - n)). split.
    + f_equal. f_equal. lia.
    + apply in_seq. lia.
Qed.

(** The instants of a month are those whose day is one of the month's days. *)
Lemma isCurrentMonth_monthDays (t t' : Z) :
  isCurrentMonth (Time t') (Time t) = true
  <-> In (startOfDay (Time t')) (monthDays (YearFromTime t) (MonthFromTime t)).
Proof.
  rewrite monthDays_consecutive.
  change (startOfDay (Time t')) with (Time (MakeDate (Day t') 0)).
  rewrite In_consecutiveDays.
  unfold isCurrentMonth, isSameMonth.
  cbn [getFullYear getMonth getTime option_map].
  rewrite andb_true_iff, !Z.eqb_eq.
  unfold YearFromTime, MonthFromTime.
  set (n := Day t). set (n' := Day t').
  destruct (MakeDay_civilOfDay n) as (_ & Hm & _).
  pose proof (daysInMonth_range (YearOfDay n) (MonthOfDay n)) as Hdim.
  split.
  - intros [Hy Hmo].
    destruct (MakeDay_civilOfDay n') as (Hn' & _ & Hd').
    rewrite Hy, Hmo in Hn', Hd'.
    rewrite (MakeDay_date _ _ 1) in Hn'. lia.
  - intros Hrange.
    assert (Hciv : civilOfDay n' = (YearOfDay n, MonthOfDay n, 1 + (n' - MakeDay (YearOfDay n) (MonthOfDay n) 1))).
    { replace n' with (MakeDay (YearOfDay n) (MonthOfDay n)
                         (1 + (n' - MakeDay (YearOfDay n) (MonthOfDay n) 1))) at 1
        by (rewrite (MakeDay_date _ _ 1); lia).
      apply civilOfDay_MakeDay; lia. }
    unfold civilOfDay in Hciv. injection Hciv as Hyear Hmonth _. split; assumption.
Qed.

Lemma consecutiveDays_nth (n : Z) (k i : nat) :
  (i < k)%nat ->
  nth_error (consecutiveDays n k) i = Some (Time ((n + Z.of_nat i) * msPerDay)).
Proof.
  intros Hi. unfold consecutiveDays.
  rewrite nth_error_map, nth_error_seq.
  destruct (Nat.ltb_spec i k) as [_ | Hge]; [| lia].
  cbn [option_map Nat.add]. unfold MakeDate. f_equal. f_equal. lia.
Qed.

(** In local time, which is the code in a zone that keeps one offset: for
    every reference date the month grid is returned, has 42 entries, and is
    the local midnights of 42 consecutive calendar days starting on the
    Sunday on or before the first day of the date's month; the days of that
    month, first to last, are a contiguous block of the grid, preceded by
    the days back to that Sunday. *)
Lemma getCalendarGrid_local :
  forall t : Z,
    let year := YearFromTime t in
    let month := MonthFromTime t in
    let first := MakeDay year month 1 in
    exists (sunday : Z) (grid : list Date),
      getCalendarGrid (Time t) = Some grid
      /\ length grid = 42%nat
      /\ grid = consecutiveDays sunday 42
      /\ (forall i : nat,
             (i < 42)%nat ->
             nth_error grid i = Some (Time ((sunday + Z.of_nat i) * msPerDay)))
      /\ WeekDayOfDay sunday = 0
      /\ sunday <= first < sunday + 7
      /\ civilOfDay first = (year, month, 1)
      /\ (exists before after,
             grid = before ++ monthDays year month ++ after
             /\ Z.of_nat (length before) = first - sunday)
      /\ (forall t',
             isCurrentMonth (Time t') (Time t) = true
             <-> In (startOfDay (Time t')) (monthDays year month)).
Proof.
  intros t year month first.
  exists (first - WeekDayOfDay first), (consecutiveDays (first - WeekDayOfDay first) 42).
  assert (Hwd : 0 <= WeekDayOfDay first < 7) by (apply Z.mod_pos_bound; lia).
  destruct (MakeDay_civilOfDay (Day t)) as (_ & Hm & _).
  pose proof (daysInMonth_range year month) as Hdim.
  split; [apply getCalendarGrid_days |].
  split; [apply consecutiveDays_length |].
  split; [reflexivity |].
  split; [intros i Hi; apply consecutiveDays_nth; exact Hi |].
  split; [unfold WeekDayOfDay in *; Z.div_mod_to_equations; lia |].
  split; [lia |].
  split; [apply civilOfDay_MakeDay; [exact Hm | lia] |].
  split; [| intros t'; apply isCurrentMonth_monthDays].
  exists (consecutiveDays (first - WeekDayOfDay first) (Z.to_nat (WeekDayOfDay first))).
  exists (consecutiveDays (first + daysInMonth year month)
            (42 - Z.to_nat (WeekDayOfDay first) - Z.to_nat (daysInMonth year month))).
  split; [| rewrite consecutiveDays_length; lia].
  rewrite monthDays_consecutive. fold first.
  replace 42%nat with
    (Z.to_nat (WeekDayOfDay first)
     + (Z.to_nat (daysInMonth year month)
        + (42 - Z.to_nat (WeekDayOfDay first) - Z.to_nat (daysInMonth year month))))%nat
    at 1 by lia.
  rewrite !consecutiveDays_app.
  replace (first - WeekDayOfDay first + Z.of_nat (Z.to_nat (WeekDayOfDay first)))
    with first by lia.
  replace (first + Z.of_nat (Z.to_nat (daysInMonth year month)))
    with (first + daysInMonth year month) by lia.
  reflexivity.
Qed.

(** On an Invalid Date the interval of days is empty and the padding loop
    has no last day to extend. *)
Example getCalendarGrid_invalid :
  eachDayOfInterval (startOfWeek (startOfMonth InvalidDate) 0)
                    (endOfWeek (endOfMonth InvalidDate) 0) = []
  /\ getCalendarGrid InvalidDate = None.
Proof. split; reflexivity. Qed.

(** The grid for 2024-02-01: 42 days from 2024-01-28 to 2024-03-09. *)
Example getCalendarGrid_february_2024 :
  getCalendarGrid (newDate 2024 1 1 0 0)
  = Some (consecutiveDays (MakeDay 2024 0 28) 42)
  /\ JSArray.lastElement (consecutiveDays (MakeDay 2024 0 28) 42)
     = Some (newDate 2024 2 9 0 0).
Proof. split; vm_compute; reflexivity. Qed.

(** February 2015 starts on a Sunday and fills four weeks: the grid starts
    on the first of the month and is padded by two weeks of March. *)
Example getCalendarGrid_february_2015 :
  eachDayOfInterval (startOfWeek (startOfMonth (newDate 2015 1 14 9 30)) 0)
                    (endOfWeek (endOfMonth (newDate 2015 1 14 9 30)) 0)
  = consecutiveDays (MakeDay 2015 1 1) 28
  /\ getCalendarGrid (newDate 2015 1 14 9 30)
     = Some (consecutiveDays (MakeDay 2015 1 1) 42)
  /\ JSArray.lastElement (consecutiveDays (MakeDay 2015 1 1) 42)
     = Some (newDate 2015 2 14 0 0).
Proof. repeat split; vm_compute; reflexivity. Qed.

(** ** Printing and reading dates and times *)

Lemma digitValue_digitChar (d : Z) :
  0 <= d <= 9 -> JSString.digitValue (JSString.digitChar d) = Some d.
Proof.
  intros H.
  assert (Hcases : d = 0 \/ d = 1 \/ d = 2 \/ d = 3 \/ d = 4 \/ d = 5 \/ d = 6 \/ d = 7
                   \/ d = 8 \/ d = 9) by lia.
  repeat (destruct Hcases as [-> | Hcases]; [reflexivity |]).
  subst d. reflexivity.
Qed.

Lemma digitsValue_twoDigits (n : Z) :
  0 <= n <= 99 -> JSString.digitsValue 0 (twoDigits n) = Some n.
Proof.
  intros H. unfold twoDigits. cbn [JSString.digitsValue].
  rewrite !digitValue_digitChar by (Z.div_mod_to_equations; lia).
  f_equal. Z.div_mod_to_equations. lia.
Qed.

Lemma digitsValue_fourDigits (n : Z) :
  0 <= n <= 9999 -> JSString.digitsValue 0 (fourDigits n) = Some n.
Proof.
  intros H. unfold fourDigits, twoDigits. cbn [JSString.digitsValue].
  rewrite !digitValue_digitChar by (Z.div_mod_to_equations; lia).
  f_equal. Z.div_mod_to_equations. lia.
Qed.

Lemma addLeadingZeros_twoDigits (n : Z) :
  0 <= n <= 99 -> addLeadingZeros n 2 = twoDigits n.
Proof.
  intros H. apply String.eqb_eq.
  apply (forallFrom_spec 100 (fun n => String.eqb (addLeadingZeros n 2) (twoDigits n)) 0);
    [vm_compute; reflexivity | lia].
Qed.

Lemma addLeadingZeros_fourDigits (n : Z) :
  0 <= n <= 9999 -> addLeadingZeros n 4 = fourDigits n.
Proof.
  intros H. apply String.eqb_eq.
  apply (forallFrom_spec (Z.to_nat 10000)
           (fun n => String.eqb (addLeadingZeros n 4) (fourDigits n)) 0);
    [vm_compute; reflexivity | lia].
Qed.

(** [parseISO] on a printed date. *)
Lemma parseISO_dateText (year month day : Z) :
  1 <= year <= 9999 -> 0 <= month <= 11 -> 1 <= day <= daysInMonth year month ->
  parseISO (dateText year month day) = Time (MakeDate (MakeDay year month day) 0).
Proof.
  intros Hy Hm Hd. pose proof (daysInMonth_range year month) as Hdim.
  unfold dateText.
  rewrite addLeadingZeros_fourDigits, !addLeadingZeros_twoDigits by lia.
  pose proof (digitsValue_fourDigits year ltac:(lia)) as Hyear.
  pose proof (digitsValue_twoDigits (month + 1) ltac:(lia)) as Hmonth.
  pose proof (digitsValue_twoDigits day ltac:(lia)) as Hday.
  unfold fourDigits, twoDigits in *.
  cbv [String.concat String.append parseISO].
  rewrite Hyear, Hmonth, Hday.
  replace (month + 1 - 1) with month by lia.
  unfold validateDate.
  destruct (Z.leb_spec 0 month); [| lia].
  destruct (Z.leb_spec month 11); [| lia].
  destruct (Z.leb_spec 1 day); [| lia].
  destruct (Z.leb_spec day (daysInMonth year month)); [| lia].
  reflexivity.
Qed.

Lemma formatDateForInput_Time (t : Z) :
  1 <= YearFromTime t ->
  formatDateForInput (Time t)
  = Ok (dateText (YearFromTime t) (MonthFromTime t) (DateFromTime t)).
Proof.
  intros Hy. unfold formatDateForInput, format, pattern_yyyy_MM_dd, dateText.
  cbn [map formatToken].
  destruct (Z.ltb_spec 0 (YearFromTime t)); [reflexivity | lia].
Qed.

Lemma formatTimeForInput_Time (t : Z) :
  formatTimeForInput (Time t) = Ok (timeText (HourFromTime t) (MinFromTime t)).
Proof. reflexivity. Qed.

Lemma timeTextCheck_all (hours minutes : Z) :
  0 <= hours < 24 -> 0 <= minutes < 60 ->
  map JSString.Number (JSString.split ":" (timeText hours minutes))
  = [Some hours; Some minutes].
Proof.
  intros Hh Hm.
  assert (Hcheck : timeTextCheck hours = true).
  { apply (forallFrom_spec 24 timeTextCheck 0); [vm_compute; reflexivity | lia]. }
  unfold timeTextCheck in Hcheck.
  apply (forallFrom_spec 60 _ 0 minutes) in Hcheck; [| lia].
  cbv beta in Hcheck.
  destruct (map JSString.Number (JSString.split ":" (timeText hours minutes)))
    as [| [h|] [| [m|] [| ? ?]]]; try discriminate.
  apply andb_true_iff in Hcheck. rewrite !Z.eqb_eq in Hcheck.
  destruct Hcheck as [-> ->]. reflexivity.
Qed.

Lemma setHours1_midnight (n h : Z) :
  setHours1 h (Time (MakeDate n 0)) = Time (MakeDate n (MakeTime h 0 0 0)).
Proof.
  cbn [setHours1 onTime]. f_equal.
  unfold MakeDate, MakeTime, Day, MinFromTime, SecFromTime, msFromTime,
    msPerDay, msPerHour, msPerMinute, msPerSecond.
  Z.div_mod_to_equations. lia.
Qed.

Lemma setMinutes1_on_hour (n h m : Z) :
  0 <= h < 24 ->
  setMinutes1 m (Time (MakeDate n (MakeTime h 0 0 0)))
  = Time (MakeDate n (MakeTime h m 0 0)).
Proof.
  intros Hh. cbn [setMinutes1 onTime]. f_equal.
  unfold MakeDate, MakeTime, Day, HourFromTime, SecFromTime, msFromTime,
    msPerDay, msPerHour, msPerMinute, msPerSecond.
  Z.div_mod_to_equations. lia.
Qed.

Lemma MakeDate_whole_minute (t : Z) :
  t mod msPerMinute = 0 ->
  MakeDate (Day t) (MakeTime (HourFromTime t) (MinFromTime t) 0 0) = t.
Proof.
  unfold MakeDate, MakeTime, Day, HourFromTime, MinFromTime,
    msPerDay, msPerHour, msPerMinute, msPerSecond.
  intros H. Z.div_mod_to_equations. lia.
Qed.

(** A printed instant on a whole minute reads back as itself. *)
Lemma parseDateTimeInputs_printed (t : Z) (dateString timeString : string) :
  onWholeMinute (Time t) = true ->
  formatDateForInput (Time t) = Ok dateString ->
  formatTimeForInput (Time t) = Ok timeString ->
  parseDateTimeInputs dateString timeString = Time t.
Proof.
  unfold onWholeMinute. rewrite !andb_true_iff, Z.eqb_eq, !Z.leb_le.
  intros ((Hmin & Hy1) & Hy2) Hdate Htime.
  rewrite formatDateForInput_Time in Hdate by exact Hy1.
  rewrite formatTimeForInput_Time in Htime.
  injection Hdate as <-. injection Htime as <-.
  unfold parseDateTimeInputs.
  destruct (MakeDay_civilOfDay (Day t)) as (Hday & Hm & Hd).
  unfold YearFromTime, MonthFromTime, DateFromTime in *.
  rewrite parseISO_dateText by lia.
  rewrite timeTextCheck_all by (apply HourFromTime_range || apply MinFromTime_range).
  cbn [nth_error default from_option id setHours setMinutes].
  rewrite Hday, setHours1_midnight, setMinutes1_on_hour by apply HourFromTime_range.
  f_equal. apply MakeDate_whole_minute. exact Hmin.
Qed.

(** ** Event to fields and back *)

Lemma onWholeMinute_inv (date : Date) :
  onWholeMinute date = true ->
  exists t, date = Time t /\ 1 <= YearFromTime t.
Proof.
  destruct date as [t|]; cbn [onWholeMinute]; [| discriminate].
  rewrite !andb_true_iff, !Z.leb_le. intros ((_ & Hy) & _). exists t. auto.
Qed.

(** In local time: an event as the form would commit it (trimmed title;
    description absent or trimmed and non-empty; a non-empty colour; category
    absent or non-empty; start and end valid, on whole minutes, in years 1 to
    9999) is turned into fields without an exception, and turning those
    fields back with the event's identity gives the event itself. *)
Lemma roundTrip_local :
  forall (freshId : string) (event : CalendarEvent.t),
    asCommitted event = true ->
    exists fields,
      eventToFormData event = Ok fields
      /\ formDataToEvent freshId fields (Some (CalendarEvent.id event)) = event.
Proof.
  intros freshId [ident title description startDate endDate color category].
  unfold asCommitted. cbn [CalendarEvent.title CalendarEvent.description
    CalendarEvent.startDate CalendarEvent.endDate CalendarEvent.color
    CalendarEvent.category CalendarEvent.id].
  rewrite !andb_true_iff.
  intros (((((Htitle & Hdesc) & Hcolor) & Hcat) & Hstart) & Hend).
  destruct (onWholeMinute_inv _ Hstart) as (s & -> & Hys).
  destruct (onWholeMinute_inv _ Hend) as (e & -> & Hye).
  unfold eventToFormData. cbn [CalendarEvent.startDate CalendarEvent.endDate].
  rewrite !formatDateForInput_Time, !formatTimeForInput_Time by assumption.
  cbn [bind]. eexists. split; [reflexivity |].
  unfold formDataToEvent.
  cbn [EventFormData.title EventFormData.description EventFormData.startDate
    EventFormData.startTime EventFormData.endDate EventFormData.endTime
    EventFormData.color EventFormData.category CalendarEvent.title
    CalendarEvent.description CalendarEvent.color CalendarEvent.category
    CalendarEvent.id default from_option id].
  apply String.eqb_eq in Htitle. rewrite Htitle.
  rewrite (parseDateTimeInputs_printed s), (parseDateTimeInputs_printed e);
    try assumption;
    try (apply formatDateForInput_Time; assumption);
    try apply formatTimeForInput_Time.
  f_equal.
  - destruct description as [d|]; cbn [default from_option id]; [| reflexivity].
    apply andb_true_iff in Hdesc. destruct Hdesc as [Htrim Hd].
    apply String.eqb_eq in Htrim. rewrite Htrim.
    unfold orElse. rewrite Hd. reflexivity.
  - destruct color as [c|]; cbn [default from_option id]; [| discriminate].
    unfold orElse. rewrite Hcolor. reflexivity.
  - destruct category as [c|]; cbn [default from_option id]; [| reflexivity].
    unfold orElse. rewrite Hcat. reflexivity.
Qed.


(** ** Defaults of a new event *)

Lemma defaultTimeCheck_all (hours : Z) :
  0 <= hours <= 21 -> defaultTimeCheck hours = true.
Proof.
  intros H.
  apply (forallFrom_spec 22 defaultTimeCheck 0); [vm_compute; reflexivity | lia].
Qed.

Lemma HourFromTime_topOfHour (t k : Z) :
  0 <= HourFromTime t + k < 24 ->
  HourFromTime (topOfHour t + k * msPerHour) = HourFromTime t + k
  /\ MinFromTime (topOfHour t + k * msPerHour) = 0.
Proof.
  unfold topOfHour, HourFromTime, MinFromTime, msPerHour, msPerMinute.
  intros H. split; Z.div_mod_to_equations; lia.
Qed.

(** What the defaults are, hour by hour.  The base instant is the clicked
    date when one is supplied and the clock otherwise.  Whatever the hour,
    title, description and category are empty, the colour is the first
    palette entry and both date fields are the base's calendar date.  With
    the base's hour at most 21 the start time is the top of the hour one
    hour after the base and the end time the top of the hour two hours after
    it, both [HH:mm] times of day. *)
Lemma getDefaultFormData_daytime :
  forall (clock : Date) (date : option Date) (t : Z),
    default clock date = Time t ->
    exists fields,
      getDefaultFormData clock date = Ok fields
      /\ EventFormData.title fields = ""
      /\ EventFormData.description fields = ""
      /\ EventFormData.category fields = ""
      /\ option_map snd (nth_error EVENT_COLORS 0) = Some (EventFormData.color fields)
      /\ formatDateForInput (Time t) = Ok (EventFormData.startDate fields)
      /\ EventFormData.endDate fields = EventFormData.startDate fields
      /\ (HourFromTime t <= 21 ->
          formatTimeForInput (Time (topOfHour t + 1 * msPerHour))
          = Ok (EventFormData.startTime fields)
          /\ formatTimeForInput (Time (topOfHour t + 2 * msPerHour))
             = Ok (EventFormData.endTime fields)
          /\ validTimeOfDay (EventFormData.startTime fields) = true
          /\ validTimeOfDay (EventFormData.endTime fields) = true).
Proof.
  intros clock date t Hbase.
  pose proof (HourFromTime_range t) as Hh.
  unfold getDefaultFormData. rewrite Hbase.
  unfold formatDateForInput, format. cbn [bind].
  eexists. split; [reflexivity |].
  cbn [EventFormData.title EventFormData.description EventFormData.category
    EventFormData.color EventFormData.startDate EventFormData.endDate
    EventFormData.startTime EventFormData.endTime].
  do 6 (split; [reflexivity |]).
  intros Hhour.
  pose proof (defaultTimeCheck_all (HourFromTime t) ltac:(lia)) as Hcheck.
  unfold defaultTimeCheck in Hcheck. rewrite !andb_true_iff in Hcheck.
  destruct Hcheck as (((Hvs & Hve) & Hs) & He).
  apply String.eqb_eq in Hs, He.
  rewrite !formatTimeForInput_Time.
  destruct (HourFromTime_topOfHour t 1 ltac:(lia)) as [-> ->].
  destruct (HourFromTime_topOfHour t 2 ltac:(lia)) as [-> ->].
  cbn [DateFns.getHours ES.getHours getTime option_map].
  repeat split; try assumption; f_equal; symmetry; assumption.
Qed.

(** From 22:00 on the incremented hour is not wrapped: every base instant
    in the hour of 22 gives the end time ["24:00"], and every base instant in
    the hour of 23 gives the start time ["24:00"] and the end time
    ["25:00"]. *)
Lemma getDefaultFormData_no_wrap :
  forall (clock : Date) (date : option Date) (t : Z),
    default clock date = Time t ->
    exists fields,
      getDefaultFormData clock date = Ok fields
      /\ (HourFromTime t = 22 ->
          EventFormData.startTime fields = "23:00"
          /\ EventFormData.endTime fields = "24:00")
      /\ (HourFromTime t = 23 ->
          EventFormData.startTime fields = "24:00"
          /\ EventFormData.endTime fields = "25:00").
Proof.
  intros clock date t Hbase.
  unfold getDefaultFormData. rewrite Hbase.
  unfold formatDateForInput, format. cbn [bind].
  eexists. split; [reflexivity |].
  cbn [EventFormData.startTime EventFormData.endTime ES.getHours getTime option_map].
  split; intros ->; split; reflexivity.
Qed.

(** C6 fails on the code.  At 23:30, with no clicked date, the defaults are
    returned with the start time ["24:00"] and the end time ["25:00"]: the
    hour after the base's is not wrapped, and neither string is a time of
    day, where the claim has the start one hour and the end two hours after
    now as valid [HH:mm] strings. *)
Theorem getDefaultFormData_past_midnight :
  exists fields,
    getDefaultFormData lateEvening None = Ok fields
    /\ EventFormData.startDate fields = "2024-03-10"
    /\ EventFormData.endDate fields = "2024-03-10"
    /\ EventFormData.startTime fields = "24:00"
    /\ EventFormData.endTime fields = "25:00"
    /\ validTimeOfDay (EventFormData.startTime fields) = false
    /\ validTimeOfDay (EventFormData.endTime fields) = false.
Proof.
  eexists. split; [vm_compute; reflexivity |].
  repeat split; vm_compute; reflexivity.
Qed.

(** With a clicked date the time fields follow the clicked date's hour, not
    the clock's: clicked at midnight while the clock reads 14:30, the default
    start time is ["01:00"]. *)
Example getDefaultFormData_clicked_midnight :
  exists fields,
    getDefaultFormData afternoon (Some clickedDay) = Ok fields
    /\ EventFormData.startDate fields = "2024-03-12"
    /\ EventFormData.startTime fields = "01:00"
    /\ EventFormData.endTime fields = "02:00".
Proof.
  eexists. split; [vm_compute; reflexivity |].
  repeat split; vm_compute; reflexivity.
Qed.

(** ** Week bucketing *)

(** C10. With an empty array of week days there is no first and no last
    day, and [getEventsForWeek] returns the empty list before any interval
    test is made. *)
Theorem getEventsForWeek_no_days :
  forall events : list CalendarEvent.t, getEventsForWeek events [] = [].
Proof.
  intros events. reflexivity.
Qed.

(** C2 fails on the code.  The week is Sunday 3 to Saturday 9 March 2024;
    the event runs from Saturday 2 March to Sunday 10 March, so its interval
    meets the range, and [getEventsForDate] puts it in the bucket of every
    day of the week; [getEventsForWeek] leaves it out, because neither its
    start nor its end lies inside the week. *)
Theorem getEventsForWeek_misses_spanning_event :
  sampleWeek = consecutiveDays (MakeDay 2024 2 3) 7
  /\ touchesRange (newDate 2024 2 3 0 0) (newDate 2024 2 9 0 0) spanningEvent = true
  /\ getEventsForWeek [spanningEvent] sampleWeek = []
  /\ Forall (fun day => getEventsForDate [spanningEvent] day = [spanningEvent]) sampleWeek.
Proof.
  assert (Hweek : sampleWeek = consecutiveDays (MakeDay 2024 2 3) 7)
    by (vm_compute; reflexivity).
  split; [exact Hweek |].
  split; [vm_compute; reflexivity |].
  split; [vm_compute; reflexivity |].
  rewrite Hweek. unfold consecutiveDays. cbn [seq map].
  repeat (apply List.Forall_cons; [vm_compute; reflexivity |]).
  apply List.Forall_nil.
Qed.

(** * In a local time zone *)

(** ** The month grid across the end of daylight saving *)

(** C3 fails on the code.  In New York the grid for 15 October 2023 is
    returned with 42 entries.  The first 35 are the consecutive days from
    Sunday 1 October to Saturday 4 November, each at local midnight: the
    weeks of the month.  The seven entries of the padding are 5 November at
    00:00, 5 November again at 23:00, and 6 to 10 November at 23:00: the
    loop adds 24 hours to the time value of the last entry, and 5 November,
    the day daylight saving ends, lasts 25 hours.  So the grid is not
    ascending by one calendar day per step, and it ends on Friday 10
    November, a day short of six weeks. *)
Theorem getCalendarGrid_repeats_a_day :
  exists grid,
    Zoned.getCalendarGrid Zone.newYork2023 (Zoned.newDate Zone.newYork2023 2023 9 15 0 0)
    = Some grid
    /\ length grid = 42%nat
    /\ map (localDate Zone.newYork2023) (firstn 35 grid)
       = consecutiveDates (MakeDay 2023 9 1) 35
    /\ map (localTimeOfDay Zone.newYork2023) (firstn 35 grid)
       = repeat (Some (0, 0)) 35
    /\ map (localDate Zone.newYork2023) (skipn 35 grid)
       = [ Some (2023, 10, 5); Some (2023, 10, 5); Some (2023, 10, 6);
           Some (2023, 10, 7); Some (2023, 10, 8); Some (2023, 10, 9);
           Some (2023, 10, 10) ]
    /\ map (localTimeOfDay Zone.newYork2023) (skipn 35 grid)
       = [ Some (0, 0); Some (23, 0); Some (23, 0); Some (23, 0); Some (23, 0);
           Some (23, 0); Some (23, 0) ]
    /\ map (localDate Zone.newYork2023) grid <> consecutiveDates (MakeDay 2023 9 1) 42.
Proof.
  eexists. split; [vm_compute; reflexivity |].
  repeat split; try (vm_compute; reflexivity).
  vm_compute. discriminate.
Qed.

(** With the same code in a zone that keeps one offset (here UTC) the grid
    for that date is the 42 consecutive days from 1 October to 11
    November. *)
Example getCalendarGrid_october_2023_fixed :
  option_map (map (localDate (Zone.fixed 0)))
    (Zoned.getCalendarGrid (Zone.fixed 0) (Zoned.newDate (Zone.fixed 0) 2023 9 15 0 0))
  = Some (consecutiveDates (MakeDay 2023 9 1) 42).
Proof. vm_compute. reflexivity. Qed.

(** ** A zone that keeps one offset *)

Lemma toLocal_ofLocal (offset : Z) (d : Date) :
  Zoned.toLocal (Zone.fixed offset) (Zoned.ofLocal (Zone.fixed offset) d) = d.
Proof.
  destruct d as [l|]; [| reflexivity].
  cbn. f_equal. unfold Zone.LocalTime, Zone.UTC. cbn. lia.
Qed.

Lemma ofLocal_toLocal (offset : Z) (d : Date) :
  Zoned.ofLocal (Zone.fixed offset) (Zoned.toLocal (Zone.fixed offset) d) = d.
Proof.
  destruct d as [u|]; [| reflexivity].
  cbn. f_equal. unfold Zone.LocalTime, Zone.UTC. cbn. lia.
Qed.

Lemma setHours_fixed (offset : Z) (d : Date) (hours : option Z) :
  Zoned.setHours (Zone.fixed offset) (Zoned.ofLocal (Zone.fixed offset) d) hours
  = Zoned.ofLocal (Zone.fixed offset) (DateFns.setHours d hours).
Proof.
  destruct hours as [h|]; [| reflexivity].
  unfold Zoned.setHours, Zoned.setHours1, DateFns.setHours.
  rewrite toLocal_ofLocal. reflexivity.
Qed.

Lemma setMinutes_fixed (offset : Z) (d : Date) (minutes : option Z) :
  Zoned.setMinutes (Zone.fixed offset) (Zoned.ofLocal (Zone.fixed offset) d) minutes
  = Zoned.ofLocal (Zone.fixed offset) (DateFns.setMinutes d minutes).
Proof.
  destruct minutes as [m|]; [| reflexivity].
  unfold Zoned.setMinutes, Zoned.setMinutes1, DateFns.setMinutes.
  rewrite toLocal_ofLocal. reflexivity.
Qed.

(** The date that [parseISO] builds from year, month and day: local
    midnight of that day. *)
Lemma setFullYear_epoch_fixed (offset year month day : Z) :
  Zoned.setHours4 (Zone.fixed offset) 0 0 0 0
    (Zoned.setFullYear (Zone.fixed offset) year month day (Time 0))
  = Zoned.ofLocal (Zone.fixed offset) (Time (MakeDate (MakeDay year month day) 0)).
Proof.
  unfold Zoned.setHours4, Zoned.setFullYear. rewrite toLocal_ofLocal.
  cbn [Zoned.toLocal onTime ES.setFullYear].
  rewrite setHours4_MakeDate by apply TimeWithinDay_range. reflexivity.
Qed.

Lemma parseISO_fixed (offset : Z) (s : string) :
  Zoned.parseISO (Zone.fixed offset) s
  = Zoned.ofLocal (Zone.fixed offset) (DateFns.parseISO s).
Proof.
  unfold Zoned.parseISO, DateFns.parseISO.
  repeat match goal with
         | |- context [match ?x with _ => _ end] => destruct x
         end; try reflexivity.
  apply setFullYear_epoch_fixed.
Qed.

Lemma parseDateTimeInputs_fixed (offset : Z) (dateString timeString : string) :
  Zoned.parseDateTimeInputs (Zone.fixed offset) dateString timeString
  = Zoned.ofLocal (Zone.fixed offset) (parseDateTimeInputs dateString timeString).
Proof.
  unfold Zoned.parseDateTimeInputs, parseDateTimeInputs. cbv zeta.
  rewrite parseISO_fixed, setHours_fixed, setMinutes_fixed. reflexivity.
Qed.

Lemma formDataToEvent_fixed (offset : Z) (freshId : string) (data : EventFormData.t)
  (existingId : option string) :
  Zoned.formDataToEvent (Zone.fixed offset) freshId data existingId
  = inUTC (Zone.fixed offset) (formDataToEvent freshId data existingId).
Proof.
  unfold Zoned.formDataToEvent, formDataToEvent, inUTC.
  cbn [CalendarEvent.id CalendarEvent.title CalendarEvent.description
         CalendarEvent.startDate CalendarEvent.endDate CalendarEvent.color
         CalendarEvent.category].
  rewrite !parseDateTimeInputs_fixed. reflexivity.
Qed.

Lemma eventToFormData_inLocalTime (tz : Zone.t) (event : CalendarEvent.t) :
  Zoned.eventToFormData tz event = eventToFormData (inLocalTime tz event).
Proof. reflexivity. Qed.

Lemma inUTC_inLocalTime (offset : Z) (event : CalendarEvent.t) :
  inUTC (Zone.fixed offset) (inLocalTime (Zone.fixed offset) event) = event.
Proof.
  destruct event. unfold inUTC, inLocalTime.
  cbn [CalendarEvent.id CalendarEvent.title CalendarEvent.description
         CalendarEvent.startDate CalendarEvent.endDate CalendarEvent.color
         CalendarEvent.category].
  rewrite !ofLocal_toLocal. reflexivity.
Qed.

(** ** Event to fields and back *)



(** Where daylight saving ends the condition on the zone is needed.  In New
    York the hour from 01:00 to 02:00 of 5 November 2023 passes twice.  An
    event in the committed form that starts at the second 01:30 (06:30 UTC)
    has the fields [2023-11-05] and [01:30], which are read as the first
    01:30 (05:30 UTC): it comes back starting an hour earlier. *)
Example roundTrip_repeated_hour :
  let event :=
    sampleEvent "evt-1"
      (Time (MakeDate (MakeDay 2023 10 5) (MakeTime 6 30 0 0)))
      (Time (MakeDate (MakeDay 2023 10 5) (MakeTime 7 30 0 0))) in
  asCommitted (inLocalTime Zone.newYork2023 event) = true
  /\ exists fields back,
       Zoned.eventToFormData Zone.newYork2023 event = Ok fields
       /\ EventFormData.startDate fields = "2023-11-05"
       /\ EventFormData.startTime fields = "01:30"
       /\ roundTripIn Zone.newYork2023 "evt-new" event = Ok back
       /\ CalendarEvent.startDate back
          = Time (MakeDate (MakeDay 2023 10 5) (MakeTime 5 30 0 0))
       /\ CalendarEvent.endDate back = CalendarEvent.endDate event
       /\ back <> event.
Proof.
  cbv zeta. split; [vm_compute; reflexivity |].
  eexists. eexists.
  split; [vm_compute; reflexivity |].
  split; [reflexivity |]. split; [reflexivity |].
  split; [vm_compute; reflexivity |].
  split; [vm_compute; reflexivity |].
  split; [vm_compute; reflexivity |].
  vm_compute. discriminate.
Qed.

(** ** The month grid in a zone that keeps one offset *)

Lemma getters_fixed (offset : Z) (d : Date) :
  Zoned.getFullYear (Zone.fixed offset) (Zoned.ofLocal (Zone.fixed offset) d)
  = ES.getFullYear d
  /\ Zoned.getMonth (Zone.fixed offset) (Zoned.ofLocal (Zone.fixed offset) d) = ES.getMonth d
  /\ Zoned.getDate (Zone.fixed offset) (Zoned.ofLocal (Zone.fixed offset) d) = ES.getDate d
  /\ Zoned.getDay (Zone.fixed offset) (Zoned.ofLocal (Zone.fixed offset) d) = ES.getDay d.
Proof.
  unfold Zoned.getFullYear, Zoned.getMonth, Zoned.getDate, Zoned.getDay.
  rewrite toLocal_ofLocal. repeat split.
Qed.

Lemma startOfMonth_fixed (offset : Z) (d : Date) :
  Zoned.startOfMonth (Zone.fixed offset) (Zoned.ofLocal (Zone.fixed offset) d)
  = Zoned.ofLocal (Zone.fixed offset) (startOfMonth d).
Proof.
  unfold Zoned.startOfMonth, Zoned.setHours4, Zoned.setDate, startOfMonth.
  rewrite !toLocal_ofLocal. reflexivity.
Qed.

Lemma endOfMonth_fixed (offset : Z) (d : Date) :
  Zoned.endOfMonth (Zone.fixed offset) (Zoned.ofLocal (Zone.fixed offset) d)
  = Zoned.ofLocal (Zone.fixed offset) (endOfMonth d).
Proof.
  unfold Zoned.endOfMonth, endOfMonth.
  destruct (getters_fixed offset d) as (-> & -> & _ & _).
  destruct (ES.getFullYear d), (ES.getMonth d); try reflexivity.
  unfold Zoned.setHours4, Zoned.setFullYear. rewrite !toLocal_ofLocal. reflexivity.
Qed.

Lemma startOfWeek_fixed (offset : Z) (d : Date) (weekStartsOn : Z) :
  Zoned.startOfWeek (Zone.fixed offset) (Zoned.ofLocal (Zone.fixed offset) d) weekStartsOn
  = Zoned.ofLocal (Zone.fixed offset) (startOfWeek d weekStartsOn).
Proof.
  unfold Zoned.startOfWeek, startOfWeek.
  destruct (getters_fixed offset d) as (_ & _ & -> & ->).
  destruct (ES.getDay d), (ES.getDate d); try reflexivity.
  unfold Zoned.setHours4, Zoned.setDate. rewrite !toLocal_ofLocal. reflexivity.
Qed.

Lemma endOfWeek_fixed (offset : Z) (d : Date) (weekStartsOn : Z) :
  Zoned.endOfWeek (Zone.fixed offset) (Zoned.ofLocal (Zone.fixed offset) d) weekStartsOn
  = Zoned.ofLocal (Zone.fixed offset) (endOfWeek d weekStartsOn).
Proof.
  unfold Zoned.endOfWeek, endOfWeek.
  destruct (getters_fixed offset d) as (_ & _ & -> & ->).
  destruct (ES.getDay d), (ES.getDate d); try reflexivity.
  unfold Zoned.setHours4, Zoned.setDate. rewrite !toLocal_ofLocal. reflexivity.
Qed.

Lemma leNumber_fixed (offset : Z) (d : Date) (e : option Z) :
  leNumber (getTime (Zoned.ofLocal (Zone.fixed offset) d))
    (option_map (fun x => x - offset) e)
  = leNumber (getTime d) e.
Proof.
  destruct d as [l|], e as [x|]; try reflexivity.
  cbn. unfold Zone.UTC. cbn.
  destruct (Z.leb_spec (l - offset) (x - offset)), (Z.leb_spec l x); try reflexivity; lia.
Qed.

(** A run of the loop that ends before its fuel does is the run of the loop
    on local time, instant by instant. *)
Lemma eachDayLoop_fixed (offset : Z) (fuel : nat) :
  forall (d : Date) (e : option Z),
    (length (eachDayLoop fuel d e) < fuel)%nat ->
    Zoned.eachDayLoop (Zone.fixed offset) fuel (Zoned.ofLocal (Zone.fixed offset) d)
      (option_map (fun x => x - offset) e)
    = Some (map (Zoned.ofLocal (Zone.fixed offset)) (eachDayLoop fuel d e)).
Proof.
  induction fuel as [| fuel IH]; intros d e Hlen; [cbn in Hlen; lia |].
  cbn [Zoned.eachDayLoop eachDayLoop] in *. rewrite leNumber_fixed.
  destruct (leNumber (getTime d) e); [| reflexivity].
  cbn [length map] in *.
  destruct (getters_fixed offset d) as (_ & _ & -> & _).
  replace (match ES.getDate d with
           | Some dt =>
               Zoned.setHours4 (Zone.fixed offset) 0 0 0 0
                 (Zoned.setDate (Zone.fixed offset) (dt + 1)
                    (Zoned.ofLocal (Zone.fixed offset) d))
           | None => InvalidDate
           end)
    with (Zoned.ofLocal (Zone.fixed offset)
            (match ES.getDate d with
             | Some dt => setHours4 0 0 0 0 (setDate (dt + 1) d)
             | None => InvalidDate
             end)).
  - rewrite IH by lia. reflexivity.
  - destruct (ES.getDate d); [| reflexivity].
    unfold Zoned.setHours4, Zoned.setDate. rewrite !toLocal_ofLocal. reflexivity.
Qed.

Lemma lastElement_map {A B : Type} (f : A -> B) (l : list A) :
  JSArray.lastElement (map f l) = option_map f (JSArray.lastElement l).
Proof.
  unfold JSArray.lastElement. rewrite <- map_rev. destruct (rev l); reflexivity.
Qed.

(** The padding loop adds to the time value, whatever it is an offset of. *)
Lemma padTo42_fixed (offset : Z) (fuel : nat) :
  forall days : list Date,
    padTo42 fuel (map (Zoned.ofLocal (Zone.fixed offset)) days)
    = option_map (map (Zoned.ofLocal (Zone.fixed offset))) (padTo42 fuel days).
Proof.
  induction fuel as [| fuel IH]; intros days; cbn [padTo42]; rewrite length_map.
  - destruct (length days <? 42)%nat; reflexivity.
  - destruct (length days <? 42)%nat; [| reflexivity].
    rewrite lastElement_map.
    destruct (JSArray.lastElement days) as [lastDay|]; cbn [option_map]; [| apply IH].
    rewrite <- IH. f_equal. rewrite map_app. cbn [map]. do 2 f_equal.
    destruct lastDay as [l|]; [| reflexivity].
    cbn. f_equal. unfold Zone.UTC. cbn. lia.
Qed.

(** In a zone that keeps one offset the grid is the 42 consecutive local
    midnights from the Sunday on or before the first day of the date's local
    month. *)
Theorem getCalendarGrid_fixed :
  forall (offset u : Z),
    let t := Zone.LocalTime (Zone.fixed offset) u in
    let first := MakeDay (YearFromTime t) (MonthFromTime t) 1 in
    Zoned.getCalendarGrid (Zone.fixed offset) (Time u)
    = Some (map (Zoned.ofLocal (Zone.fixed offset))
              (consecutiveDays (first - WeekDayOfDay first) 42))
    /\ map (localDate (Zone.fixed offset))
         (map (Zoned.ofLocal (Zone.fixed offset))
            (consecutiveDays (first - WeekDayOfDay first) 42))
       = consecutiveDates (first - WeekDayOfDay first) 42.
Proof.
  intros offset u t first.
  assert (Hu : Time u = Zoned.ofLocal (Zone.fixed offset) (Time t)).
  { unfold t. cbn. f_equal. unfold Zone.UTC, Zone.LocalTime. cbn. lia. }
  split.
  - unfold Zoned.getCalendarGrid. cbv zeta. rewrite Hu.
    rewrite startOfMonth_fixed, endOfMonth_fixed, startOfWeek_fixed, endOfWeek_fixed.
    rewrite startOfMonth_Time, endOfMonth_Time. fold first.
    assert (Hzero : 0 <= 0 < msPerDay) by (unfold msPerDay; lia).
    rewrite startOfWeek_MakeDate by exact Hzero.
    rewrite endOfWeek_MakeDate by exact endOfDayTime_range.
    set (dim := daysInMonth (YearFromTime t) (MonthFromTime t)).
    pose proof (daysInMonth_range (YearFromTime t) (MonthFromTime t)) as Hdim.
    fold dim in Hdim.
    set (last := first + dim - 1).
    set (sunday := first - WeekDayOfDay first).
    set (saturday := last + 6 - WeekDayOfDay last).
    assert (Hcount : 28 <= saturday - sunday + 1 <= 42).
    { unfold saturday, sunday, WeekDayOfDay, last. Z.div_mod_to_equations. lia. }
    pose proof endOfDayTime_range as Hend.
    set (k := Z.to_nat (saturday - sunday + 1)).
    assert (Hdays :
              Zoned.eachDayOfInterval (Zone.fixed offset)
                (Zoned.ofLocal (Zone.fixed offset) (Time (MakeDate sunday 0)))
                (Zoned.ofLocal (Zone.fixed offset)
                   (Time (MakeDate saturday (MakeTime 23 59 59 999))))
              = Some (map (Zoned.ofLocal (Zone.fixed offset)) (consecutiveDays sunday k))).
    { unfold Zoned.eachDayOfInterval. cbv zeta.
      assert (Hrev : ltNumber
                       (getTime (Zoned.ofLocal (Zone.fixed offset)
                                   (Time (MakeDate saturday (MakeTime 23 59 59 999)))))
                       (getTime (Zoned.ofLocal (Zone.fixed offset)
                                   (Time (MakeDate sunday 0))))
                     = false).
      { cbn. unfold Zone.UTC. cbn. apply Z.ltb_ge.
        unfold MakeDate, msPerDay in *. lia. }
      rewrite Hrev.
      assert (Hmidnight :
                Zoned.setHours4 (Zone.fixed offset) 0 0 0 0
                  (Zoned.ofLocal (Zone.fixed offset) (Time (MakeDate sunday 0)))
                = Zoned.ofLocal (Zone.fixed offset) (Time (MakeDate sunday 0))).
      { unfold Zoned.setHours4. rewrite toLocal_ofLocal.
        rewrite setHours4_MakeDate by exact Hzero. reflexivity. }
      rewrite !Hmidnight.
      set (fuel := match getTime (Zoned.ofLocal (Zone.fixed offset) (Time (MakeDate sunday 0))),
                         getTime (Zoned.ofLocal (Zone.fixed offset)
                                    (Time (MakeDate saturday (MakeTime 23 59 59 999)))) with
                   | Some t0, Some e => Z.to_nat ((e - t0) / msPerHour + 1)
                   | _, _ => O
                   end).
      assert (Hfuel : (k < fuel)%nat).
      { unfold fuel, k. cbn. unfold Zone.UTC. cbn.
        apply Z2Nat.inj_lt; [lia | |].
        - unfold MakeDate, msPerDay, msPerHour in *. Z.div_mod_to_equations. lia.
        - unfold MakeDate, msPerDay, msPerHour in *. Z.div_mod_to_equations. lia. }
      assert (Hold : eachDayLoop fuel (Time (MakeDate sunday 0))
                       (Some (MakeDate saturday (MakeTime 23 59 59 999)))
                     = consecutiveDays sunday k).
      { apply eachDayLoop_days; [lia |]. unfold k.
        rewrite Z2Nat.id by lia. unfold MakeDate, msPerDay in *. lia. }
      change (getTime (Zoned.ofLocal (Zone.fixed offset)
                         (Time (MakeDate saturday (MakeTime 23 59 59 999)))))
        with (option_map (fun x => x - offset)
                (Some (MakeDate saturday (MakeTime 23 59 59 999)))).
      rewrite eachDayLoop_fixed by (rewrite Hold, consecutiveDays_length; exact Hfuel).
      rewrite Hold. reflexivity. }
    rewrite Hdays, padTo42_fixed.
    rewrite padTo42_days by (unfold k; lia).
    cbn [option_map]. f_equal.
  - unfold consecutiveDays, consecutiveDates. rewrite !map_map.
    apply map_ext. intros i. unfold localDate.
    rewrite toLocal_ofLocal. cbn [getTime option_map].
    rewrite Day_MakeDate by (unfold msPerDay; lia). reflexivity.
Qed.
